(** * The metrics-server component handler of rainbond-operator

    A shallow embedding of [pkg/apis/rainbond/v1alpha1/rainbondcluster_types.go]:
    the [RainbondCluster] data model and the [metricsServer] handler with its
    lifecycle [Before], [Resources], [After], [ListPods].

    Go values are modelled as follows.
    - A [map[string]string] is a reference ([loc]) to a table kept in a heap;
      two fields holding the same reference see each other's assignments.
    - A pointer that is only ever built fresh and read ([*int32], [*bool],
      [&SecurityContext{...}]) is an [option]; [None] is [nil].
    - The [error] interface is [option err]; [None] is [nil].
    - [client.Client] is an interface: a type class over the type of control
      plane states, and every request the handler sends is logged. *)

From Stdlib Require Import ZArith.
From stdpp Require Import base option list strings gmap pretty.

Local Open Scope string_scope.
Local Open Scope list_scope.

(** ** Go values *)

Abbreviation LabelMap := (gmap string string).
Abbreviation loc := positive.
Abbreviation Heap := (gmap loc LabelMap).

(** Reading through a map reference; a table never written is empty. The
    maps of this program are all made by [LabelsForRainbondComponent] and are
    taken to be allocated: an assignment through a nil map, which panics in
    Go, does not arise. *)
Definition deref (h : Heap) (r : loc) : LabelMap := default ∅ (h !! r).

(** [r[k] = v] *)
Definition assign (h : Heap) (r : loc) (k v : string) : Heap :=
  <[r := <[k := v]> (deref h r)]> h.

(** Outcome of running Go code: it returns, or a run-time panic unwinds it. *)
Inductive Run (A : Type) : Type :=
| Done (a : A)
| Panic (msg : string).
Arguments Done {A} a.
Arguments Panic {A} msg.

(** ** k8s.io/apimachinery/pkg/api/errors and fmt.Errorf *)

Inductive StatusReason : Type :=
| StatusReasonNotFound
| StatusReasonAlreadyExists
| StatusReasonConflict
| StatusReasonTimeout
| StatusReasonUnknown.

Inductive err : Type :=
| StatusError (reason : StatusReason) (message : string)
| ErrorNew (text : string)
| Errorf (format : string) (args : list string) (cause : err).

Abbreviation error := (option err).

Module k8sErrors.
(** [fmt.Errorf] with [%v] does not wrap its cause, so only a status error
    of the store itself can be a NotFound. *)
Definition IsNotFound (e : err) : bool :=
  match e with
  | StatusError StatusReasonNotFound _ => true
  | _ => false
  end.
End k8sErrors.

Inductive Result (A : Type) : Type :=
| Ok (a : A)
| Err (e : err).
Arguments Ok {A} a.
Arguments Err {A} e.

(** ** k8s.io/apimachinery: object metadata *)

Module types.
Record NamespacedName : Type := { Namespace : string; Name : string }.
End types.

Module metav1.
(** The type [R] is what a label field holds: a reference [loc] in an
    object the handler has built, the table itself once rendered. *)
Record ObjectMeta (R : Type) : Type :=
  { Name : string; Namespace : string; Labels : R }.
Arguments Name {R} _.
Arguments Namespace {R} _.
Arguments Labels {R} _.

Record LabelSelector (R : Type) : Type := { MatchLabels : R }.
Arguments MatchLabels {R} _.
End metav1.

Module intstr.
Record IntOrString : Type := { IntVal : Z; StrVal : string }.
End intstr.

(** ** k8s.io/api/core/v1 *)

Module corev1.
Record ContainerPort : Type :=
  { PortName : string; ContainerPort_ : Z }.

Record SecurityContext : Type :=
  { ReadOnlyRootFilesystem : option bool;
    RunAsNonRoot : option bool;
    RunAsUser : option Z }.

Record VolumeMount : Type := { MountName : string; MountPath : string }.

Record Container : Type :=
  { ContainerName : string;
    Image : string;
    ImagePullPolicy : string;
    Args : list string;
    ContainerPorts : list ContainerPort;
    SecurityContext_ : option SecurityContext;
    VolumeMounts : list VolumeMount }.

Inductive VolumeSource : Type :=
| EmptyDir.

Record Volume : Type := { VolumeName : string; VolumeSource_ : VolumeSource }.

Record PodSpec : Type :=
  { ServiceAccountName : string;
    TerminationGracePeriodSeconds : option Z;
    NodeSelector : LabelMap;
    Containers : list Container;
    Volumes : list Volume }.

Record PodTemplateSpec (R : Type) : Type :=
  { TemplateMeta : metav1.ObjectMeta R; TemplateSpec : PodSpec }.
Arguments TemplateMeta {R} _.
Arguments TemplateSpec {R} _.

Record ServicePort : Type := { Port : Z; TargetPort : intstr.IntOrString }.

Record ServiceSpec (R : Type) : Type :=
  { Ports : list ServicePort; Selector : R }.
Arguments Ports {R} _.
Arguments Selector {R} _.

Record Service (R : Type) : Type :=
  { ObjectMeta : metav1.ObjectMeta R; Spec : ServiceSpec R }.
Arguments ObjectMeta {R} _.
Arguments Spec {R} _.

Record Pod : Type :=
  { PodName : string; PodNamespace : string; PodLabels : LabelMap }.
End corev1.

(** ** k8s.io/api/apps/v1 *)

Module appsv1.
Record DeploymentSpec (R : Type) : Type :=
  { Replicas : option Z;
    Selector : option (metav1.LabelSelector R);
    Template : corev1.PodTemplateSpec R }.
Arguments Replicas {R} _.
Arguments Selector {R} _.
Arguments Template {R} _.

Record Deployment (R : Type) : Type :=
  { ObjectMeta : metav1.ObjectMeta R; Spec : DeploymentSpec R }.
Arguments ObjectMeta {R} _.
Arguments Spec {R} _.
End appsv1.

(** ** k8s.io/kube-aggregator/pkg/apis/apiregistration/v1beta1 *)

Module kubeaggregatorv1beta1.
Record ServiceReference : Type := { Namespace : string; Name : string }.

(** [Service] is a pointer in Go: an APIService served by the API server
    itself has none. *)
Record APIServiceSpec : Type :=
  { Service : option ServiceReference;
    Group : string;
    Version : string;
    InsecureSkipTLSVerify : bool;
    GroupPriorityMinimum : Z;
    VersionPriority : Z }.

(** Cluster scoped; of its metadata the handler uses the name and the
    revision token. *)
Record APIService : Type :=
  { ObjectName : string; ResourceVersion : string; Spec : APIServiceSpec }.

Definition with_ResourceVersion (rv : string) (a : APIService) : APIService :=
  {| ObjectName := ObjectName a; ResourceVersion := rv; Spec := Spec a |}.
End kubeaggregatorv1beta1.


(** ** package v1alpha1: the RainbondCluster resource *)

Module rainbondv1alpha1.
Record ImageHub : Type :=
  { HubDomain : string;
    HubNamespace : string;
    HubUsername : string;
    HubPassword : string }.

(** Database defines the connection information of database. *)
Record Database : Type :=
  { Host : string; Port : Z; Username : string; Password : string }.

(** EtcdConfig defines the configuration of etcd client. *)
Record EtcdConfig : Type :=
  { Endpoints : list string;
    UseTLS : bool;
    CertSecret : metav1.LabelSelector LabelMap }.

(** RainbondClusterSpec defines the desired state of RainbondCluster; each
    optional part is a pointer, [None] when unset. *)
Record RainbondClusterSpec : Type :=
  { RainbondImageRepositoryDomain : string;
    ImageHub_ : option ImageHub;
    StorageClassName : string;
    RegionDatabase : option Database;
    UIDatabase : option Database;
    EtcdConfig_ : option EtcdConfig }.

Inductive RainbondClusterPhase : Type :=
| RainbondClusterPending
| RainbondClusterInstalling
| RainbondClusterRunning.

Inductive RainbondClusterConditionType : Type :=
| StorageReady
| ImageRepositoryInstalled
| PackageExtracted
| ImageLoaded
| ImagePushed.

Inductive ConditionStatus : Type :=
| ConditionTrue
| ConditionFalse
| ConditionUnknown.

Record RainbondClusterCondition : Type :=
  { Type_ : RainbondClusterConditionType;
    Status_ : ConditionStatus;
    LastProbeTime : Z;
    LastTransitionTime : Z;
    ConditionReason : string;
    ConditionMessage : string }.

Record NodeAvailPorts : Type :=
  { NodeName : string; NodeIP : string; AvailPorts : list Z }.

Record StorageClass : Type := { ClassName : string; Provisioner : string }.

(** RainbondClusterStatus defines the observed state of RainbondCluster. *)
Record RainbondClusterStatus : Type :=
  { Phase : option RainbondClusterPhase;
    Conditions : list RainbondClusterCondition;
    Message : string;
    Reason : string;
    NodeAvailPorts_ : list NodeAvailPorts;
    StorageClasses : list StorageClass }.

(** RainbondCluster is the Schema for the rainbondclusters API. *)
Record RainbondCluster : Type :=
  { ObjectMeta : metav1.ObjectMeta LabelMap;
    Spec : RainbondClusterSpec;
    Status : option RainbondClusterStatus }.

(** Modelled from the spec: the declaration of [RbdComponent] is not among
    the sources at hand. "ComponentSpec: identity (name, namespace),
    container image, replica count, pull policy"; [Replicas] is assigned to
    the [*int32] field of a Deployment, so it is a pointer. *)
Record RbdComponentSpec : Type :=
  { Replicas : option Z; Image : string; PullPolicy : string }.

Record RbdComponent : Type :=
  { ComponentMeta : metav1.ObjectMeta LabelMap;
    ComponentSpec : RbdComponentSpec }.
End rainbondv1alpha1.

(** ** package handler *)

(** ErrV1beta1MetricsExists - *)
Definition ErrV1beta1MetricsExists : err :=
  ErrorNew "v1beta1.metrics.k8s.io already exists".

(** MetricsServerName name for metrics-server *)
Definition MetricsServerName : string := "metrics-server".
Definition metricsGroupAPI : string := "v1beta1.metrics.k8s.io".

Module commonutil.
(** [Int64] and [Bool] return a pointer to a fresh copy of their argument. *)
Definition Int64 (i : Z) : option Z := Some i.
Definition Bool (b : bool) : option bool := Some b.
End commonutil.

(** What [[]interface{}] holds in [Resources]. *)
Inductive Object (R : Type) : Type :=
| DeploymentObject (d : appsv1.Deployment R)
| ServiceObject (s : corev1.Service R).
Arguments DeploymentObject {R} d.
Arguments ServiceObject {R} s.

(** The object kinds the handler asks the client for. *)
Inductive Kind : Type :=
| KindAPIService
| KindService.

(** A request sent to the control plane. *)
Inductive Call : Type :=
| GetCall (kind : Kind) (key : types.NamespacedName)
| CreateCall (obj : kubeaggregatorv1beta1.APIService)
| UpdateCall (obj : kubeaggregatorv1beta1.APIService)
| ListPodsCall (namespace : string) (labels : LabelMap).

(** [client.Client], the requests the handler uses, over control plane
    states [W]: [Get] for the two kinds it is used at, [Create], [Update].
    Every request may fail with an [err] and leaves the control plane in a
    next state. [ListPodsOf] stands for the package's helper
    [listPods(ctx, client, namespace, labels)], whose body is not among the
    sources at hand: what it answers for a namespace and a label set. *)
Class Client (W : Type) : Type :=
  { GetAPIService :
      types.NamespacedName → W → Result kubeaggregatorv1beta1.APIService * W;
    GetService :
      types.NamespacedName → W → Result (corev1.Service LabelMap) * W;
    Create : kubeaggregatorv1beta1.APIService → W → error * W;
    Update : kubeaggregatorv1beta1.APIService → W → error * W;
    ListPodsOf : string → LabelMap → W → (list corev1.Pod * error) * W }.

(** Functions of the repository that the handler calls and whose bodies are
    not among the sources at hand: the method [ImagePullPolicy] of
    [RbdComponent] and [LabelsForRainbondComponent], which hands out the
    label map of a component, a reference to a table of the heap. *)
Class Helpers : Type :=
  { ImagePullPolicy : rainbondv1alpha1.RbdComponent → string;
    LabelsForRainbondComponent : rainbondv1alpha1.RbdComponent → loc }.

(** The state Go code runs on: the heap of label tables, the control plane,
    and the requests sent so far. *)
Record Sys (W : Type) : Type :=
  { heap : Heap; world : W; calls : list Call }.
Arguments heap {W} _.
Arguments world {W} _.
Arguments calls {W} _.

Definition Go (W A : Type) : Type := Sys W → Run (A * Sys W).

Definition ret {W A} (a : A) : Go W A := λ s, Done (a, s).

Definition bind {W A B} (c : Go W A) (k : A → Go W B) : Go W B :=
  λ s, match c s with
       | Done (a, s') => k a s'
       | Panic msg => Panic msg
       end.

Definition lift {W A} (r : Run A) : Go W A :=
  λ s, match r with
       | Done a => Done (a, s)
       | Panic msg => Panic msg
       end.

Notation "x <- c ; k" := (bind c (λ x, k))
  (at level 20, c at level 100, k at level 200, only parsing).

(** [labels[k] = v] on the heap. *)
Definition map_assign {W} (r : loc) (k v : string) : Go W unit :=
  λ s, Done (tt, {| heap := assign (heap s) r k v;
                    world := world s; calls := calls s |}).

(** [labels] as read at this moment. *)
Definition map_read {W} (r : loc) : Go W LabelMap :=
  λ s, Done (deref (heap s) r, s).

(** One request: the client answers, the control plane moves on, the request
    is logged. *)
Definition request {W A} (c : Call) (op : W → A * W) : Go W A :=
  λ s, let '(a, w) := op (world s) in
       Done (a, {| heap := heap s; world := w; calls := calls s ++ [c] |}).

Section Handler.
Context {W : Type} `{!Client W} `{!Helpers}.

Definition client_Get_APIService (key : types.NamespacedName)
  : Go W (Result kubeaggregatorv1beta1.APIService) :=
  request (GetCall KindAPIService key) (GetAPIService key).

Definition client_Get_Service (key : types.NamespacedName)
  : Go W (Result (corev1.Service LabelMap)) :=
  request (GetCall KindService key) (GetService key).

Definition client_Create (obj : kubeaggregatorv1beta1.APIService) : Go W error :=
  request (CreateCall obj) (Create obj).

Definition client_Update (obj : kubeaggregatorv1beta1.APIService) : Go W error :=
  request (UpdateCall obj) (Update obj).

Definition listPods (namespace : string) (labels : LabelMap)
  : Go W (list corev1.Pod * error) :=
  request (ListPodsCall namespace labels) (ListPodsOf namespace labels).

(** [ctx] is only handed on to the client and [client] is the instance at
    hand; [db] is never assigned. *)
Record metricsServer : Type :=
  { db : option rainbondv1alpha1.Database;
    labels : loc;
    component : rainbondv1alpha1.RbdComponent;
    cluster : rainbondv1alpha1.RainbondCluster;
    apiservice : option kubeaggregatorv1beta1.APIService }.

Definition component_Namespace (m : metricsServer) : string :=
  metav1.Namespace (rainbondv1alpha1.ComponentMeta (component m)).

Definition cluster_Namespace (m : metricsServer) : string :=
  metav1.Namespace (rainbondv1alpha1.ObjectMeta (cluster m)).

(** [m.apiservice = apiservice] *)
Definition set_apiservice (a : kubeaggregatorv1beta1.APIService)
    (m : metricsServer) : metricsServer :=
  {| db := db m; labels := labels m; component := component m;
     cluster := cluster m; apiservice := Some a |}.

(** NewMetricsServer creates a new metrics-server handler. *)
Definition NewMetricsServer (component : rainbondv1alpha1.RbdComponent)
    (cluster : rainbondv1alpha1.RainbondCluster) : metricsServer :=
  {| db := None;
     labels := LabelsForRainbondComponent component;
     component := component;
     cluster := cluster;
     apiservice := None |}.

Definition singleton_key : types.NamespacedName :=
  {| types.Namespace := ""; types.Name := metricsGroupAPI |}.

(** The receiver is a pointer: [Before] hands back the handler as it has
    left it, next to the error it returns. *)
Definition Before (m : metricsServer) : Go W (metricsServer * error) :=
  r <- client_Get_APIService singleton_key ;
  match r with
  | Err e =>
      if negb (k8sErrors.IsNotFound e)
      then ret (m, Some (Errorf "get apiservice(%s/%s): %v"
                           [MetricsServerName; cluster_Namespace m] e))
      else ret (m, None)
  | Ok apiservice => ret (set_apiservice apiservice m, None)
  end.

(** [apiservice.Spec.Service] is dereferenced without a check. *)
Definition apiServiceCreatedByRainbond (m : metricsServer) : Run bool :=
  match apiservice m with
  | None => Done true
  | Some apiservice =>
      match kubeaggregatorv1beta1.Service (kubeaggregatorv1beta1.Spec apiservice) with
      | None => Panic "invalid memory address or nil pointer dereference"
      | Some service =>
          Done (String.eqb (kubeaggregatorv1beta1.Namespace service)
                           (component_Namespace m)
                && String.eqb (kubeaggregatorv1beta1.Name service)
                              MetricsServerName)
      end
  end.

(** The three label fields hold the handler's map itself, not a copy. *)
Definition deployment (m : metricsServer) : Object loc :=
  let ds :=
    {| appsv1.ObjectMeta :=
         {| metav1.Name := MetricsServerName;
            metav1.Namespace := component_Namespace m;
            metav1.Labels := labels m |};
       appsv1.Spec :=
         {| appsv1.Replicas :=
              rainbondv1alpha1.Replicas (rainbondv1alpha1.ComponentSpec (component m));
            appsv1.Selector := Some {| metav1.MatchLabels := labels m |};
            appsv1.Template :=
              {| corev1.TemplateMeta :=
                   {| metav1.Name := MetricsServerName;
                      metav1.Namespace := "";
                      metav1.Labels := labels m |};
                 corev1.TemplateSpec :=
                   {| corev1.ServiceAccountName := "rainbond-operator";
                      corev1.TerminationGracePeriodSeconds := commonutil.Int64 0;
                      corev1.NodeSelector :=
                        {[ "beta.kubernetes.io/os" := "linux";
                           "kubernetes.io/arch" := "amd64" ]};
                      corev1.Containers :=
                        [ {| corev1.ContainerName := MetricsServerName;
                             corev1.Image :=
                               rainbondv1alpha1.Image
                                 (rainbondv1alpha1.ComponentSpec (component m));
                             corev1.ImagePullPolicy := ImagePullPolicy (component m);
                             corev1.Args :=
                               [ "--cert-dir=/tmp";
                                 "--secure-port=4443";
                                 "--kubelet-insecure-tls";
                                 "--kubelet-preferred-address-types=InternalIP" ];
                             corev1.ContainerPorts :=
                               [ {| corev1.PortName := "main-port";
                                    corev1.ContainerPort_ := 4443 |} ];
                             corev1.SecurityContext_ :=
                               Some {| corev1.ReadOnlyRootFilesystem := commonutil.Bool true;
                                       corev1.RunAsNonRoot := commonutil.Bool true;
                                       corev1.RunAsUser := commonutil.Int64 1000 |};
                             corev1.VolumeMounts :=
                               [ {| corev1.MountName := "tmp-dir";
                                    corev1.MountPath := "/tmp" |} ] |} ];
                      corev1.Volumes :=
                        [ {| corev1.VolumeName := "tmp-dir";
                             corev1.VolumeSource_ := corev1.EmptyDir |} ] |} |} |} |}
  in DeploymentObject ds.

(** [labels := m.labels] copies the reference, so the two assignments write
    the handler's own table. *)
Definition serviceForMetricsServer (m : metricsServer) : Go W (Object loc) :=
  let labels_ := labels m in
  _ <- map_assign labels_ "kubernetes.io/name" "Metrics-server" ;
  _ <- map_assign labels_ "kubernetes.io/cluster-service" "true" ;
  let svc :=
    {| corev1.ObjectMeta :=
         {| metav1.Name := MetricsServerName;
            metav1.Namespace := component_Namespace m;
            metav1.Labels := labels_ |};
       corev1.Spec :=
         {| corev1.Ports :=
              [ {| corev1.Port := 443;
                   corev1.TargetPort :=
                     {| intstr.IntVal := 4443; intstr.StrVal := "" |} |} ];
            corev1.Selector := labels m |} |}
  in ret (ServiceObject svc).

Definition apiserviceForMetricsServer (m : metricsServer)
  : kubeaggregatorv1beta1.APIService :=
  {| kubeaggregatorv1beta1.ObjectName := metricsGroupAPI;
     kubeaggregatorv1beta1.ResourceVersion := "";
     kubeaggregatorv1beta1.Spec :=
       {| kubeaggregatorv1beta1.Service :=
            Some {| kubeaggregatorv1beta1.Name := MetricsServerName;
                    kubeaggregatorv1beta1.Namespace := cluster_Namespace m |};
          kubeaggregatorv1beta1.Group := "metrics.k8s.io";
          kubeaggregatorv1beta1.Version := "v1beta1";
          kubeaggregatorv1beta1.InsecureSkipTLSVerify := true;
          kubeaggregatorv1beta1.GroupPriorityMinimum := 100;
          kubeaggregatorv1beta1.VersionPriority := 30 |} |}.

(** The elements of the slice literal are evaluated from left to right. *)
Definition Resources (m : metricsServer) : Go W (list (Object loc)) :=
  owned <- lift (apiServiceCreatedByRainbond m) ;
  if negb owned then ret []
  else
    let d := deployment m in
    s <- serviceForMetricsServer m ;
    ret [d; s].

(** The line written to the log before the update is left out. *)
Definition After (m : metricsServer) : Go W error :=
  owned <- lift (apiServiceCreatedByRainbond m) ;
  if negb owned then ret None
  else
    let newAPIService := apiserviceForMetricsServer m in
    r <- client_Get_APIService singleton_key ;
    match r with
    | Err e =>
        if negb (k8sErrors.IsNotFound e)
        then ret (Some (Errorf "get apiservice(%s/%s): %v"
                          [MetricsServerName; cluster_Namespace m] e))
        else
          e' <- client_Create newAPIService ;
          match e' with
          | Some e' => ret (Some (Errorf "create new api service: %v" [] e'))
          | None => ret None
          end
    | Ok apiservice =>
        let newAPIService :=
          kubeaggregatorv1beta1.with_ResourceVersion
            (kubeaggregatorv1beta1.ResourceVersion apiservice) newAPIService in
        e' <- client_Update newAPIService ;
        match e' with
        | Some e' => ret (Some (Errorf "update api service: %v" [] e'))
        | None => ret None
        end
    end.

Definition ListPods (m : metricsServer) : Go W (list corev1.Pod * error) :=
  let labels_ := labels m in
  owned <- lift (apiServiceCreatedByRainbond m) ;
  if negb owned then
    match apiservice m with
    | None => lift (Panic "invalid memory address or nil pointer dereference")
    | Some apiservice =>
        match kubeaggregatorv1beta1.Service (kubeaggregatorv1beta1.Spec apiservice) with
        | None => lift (Panic "invalid memory address or nil pointer dereference")
        | Some svcRef =>
            r <- client_Get_Service
                   {| types.Namespace := kubeaggregatorv1beta1.Namespace svcRef;
                      types.Name := kubeaggregatorv1beta1.Name svcRef |} ;
            match r with
            | Err e => ret ([], Some (Errorf "get svc based on apiservice: %v" [] e))
            | Ok svc =>
                let labels_ := corev1.Selector (corev1.Spec svc) in
                listPods (component_Namespace m) labels_
            end
        end
    end
  else
    selector <- map_read labels_ ;
    listPods (component_Namespace m) selector.

End Handler.

(** ** What an object says once its label references are read *)

Definition render_meta (h : Heap) (o : metav1.ObjectMeta loc)
  : metav1.ObjectMeta LabelMap :=
  {| metav1.Name := metav1.Name o;
     metav1.Namespace := metav1.Namespace o;
     metav1.Labels := deref h (metav1.Labels o) |}.

Definition render_selector (h : Heap) (s : metav1.LabelSelector loc)
  : metav1.LabelSelector LabelMap :=
  {| metav1.MatchLabels := deref h (metav1.MatchLabels s) |}.

Definition render_deployment (h : Heap) (d : appsv1.Deployment loc)
  : appsv1.Deployment LabelMap :=
  {| appsv1.ObjectMeta := render_meta h (appsv1.ObjectMeta d);
     appsv1.Spec :=
       {| appsv1.Replicas := appsv1.Replicas (appsv1.Spec d);
          appsv1.Selector := render_selector h <$> appsv1.Selector (appsv1.Spec d);
          appsv1.Template :=
            {| corev1.TemplateMeta :=
                 render_meta h (corev1.TemplateMeta (appsv1.Template (appsv1.Spec d)));
               corev1.TemplateSpec :=
                 corev1.TemplateSpec (appsv1.Template (appsv1.Spec d)) |} |} |}.

Definition render_service (h : Heap) (s : corev1.Service loc)
  : corev1.Service LabelMap :=
  {| corev1.ObjectMeta := render_meta h (corev1.ObjectMeta s);
     corev1.Spec :=
       {| corev1.Ports := corev1.Ports (corev1.Spec s);
          corev1.Selector := deref h (corev1.Selector (corev1.Spec s)) |} |}.

(** The declarative object as it would be sent to the control plane when
    the heap is [h]. *)
Definition render (h : Heap) (o : Object loc) : Object LabelMap :=
  match o with
  | DeploymentObject d => DeploymentObject (render_deployment h d)
  | ServiceObject s => ServiceObject (render_service h s)
  end.

(** ** An in-memory control plane *)

(** A stand-in for the object store, an external collaborator, after the
    contract the spec gives in section 6: [get -> object | NotFound],
    [create -> object | ConflictError],
    [update(object_with_current_revision_token) -> object |
    ConflictError(stale_revision)]. [down] makes every request fail with a
    transient error. The properties of the handler are proved for every
    client; this one serves to run it. *)
Record Store : Type :=
  { apiservices : gmap string kubeaggregatorv1beta1.APIService;
    services : gmap (string * string) (corev1.Service LabelMap);
    pods : list corev1.Pod;
    revision : N;
    down : bool }.

Definition unavailable : err := StatusError StatusReasonTimeout "control plane unavailable".

Definition store_get_apiservice (key : types.NamespacedName) (w : Store)
  : Result kubeaggregatorv1beta1.APIService * Store :=
  if down w then (Err unavailable, w)
  else match apiservices w !! types.Name key with
       | Some a => (Ok a, w)
       | None => (Err (StatusError StatusReasonNotFound (types.Name key)), w)
       end.

Definition store_get_service (key : types.NamespacedName) (w : Store)
  : Result (corev1.Service LabelMap) * Store :=
  if down w then (Err unavailable, w)
  else match services w !! (types.Namespace key, types.Name key) with
       | Some s => (Ok s, w)
       | None => (Err (StatusError StatusReasonNotFound (types.Name key)), w)
       end.

(** Stores [a] under a new revision token. *)
Definition store_put (a : kubeaggregatorv1beta1.APIService) (w : Store) : Store :=
  let rev := (revision w + 1)%N in
  {| apiservices :=
       <[kubeaggregatorv1beta1.ObjectName a :=
           kubeaggregatorv1beta1.with_ResourceVersion (pretty rev) a]> (apiservices w);
     services := services w;
     pods := pods w;
     revision := rev;
     down := down w |}.

Definition store_create (a : kubeaggregatorv1beta1.APIService) (w : Store)
  : error * Store :=
  if down w then (Some unavailable, w)
  else match apiservices w !! kubeaggregatorv1beta1.ObjectName a with
       | Some _ =>
           (Some (StatusError StatusReasonAlreadyExists
                    (kubeaggregatorv1beta1.ObjectName a)), w)
       | None => (None, store_put a w)
       end.

Definition store_update (a : kubeaggregatorv1beta1.APIService) (w : Store)
  : error * Store :=
  if down w then (Some unavailable, w)
  else match apiservices w !! kubeaggregatorv1beta1.ObjectName a with
       | None =>
           (Some (StatusError StatusReasonNotFound
                    (kubeaggregatorv1beta1.ObjectName a)), w)
       | Some cur =>
           if String.eqb (kubeaggregatorv1beta1.ResourceVersion cur)
                         (kubeaggregatorv1beta1.ResourceVersion a)
           then (None, store_put a w)
           else (Some (StatusError StatusReasonConflict
                         (kubeaggregatorv1beta1.ObjectName a)), w)
       end.

(** A pod is selected when it carries every label of the selector. *)
Definition selects (selector : LabelMap) (p : corev1.Pod) : bool :=
  forallb (λ kv, bool_decide (corev1.PodLabels p !! kv.1 = Some kv.2))
          (map_to_list selector).

Definition store_list_pods (namespace : string) (selector : LabelMap) (w : Store)
  : (list corev1.Pod * error) * Store :=
  if down w then (([], Some unavailable), w)
  else ((filter (λ p, corev1.PodNamespace p = namespace ∧ selects selector p)
                (pods w), None), w).

Definition store_client : Client Store :=
  {| GetAPIService := store_get_apiservice;
     GetService := store_get_service;
     Create := store_create;
     Update := store_update;
     ListPodsOf := store_list_pods |}.

(** A component's pull policy as its spec gives it, and one label table for
    the handler, at reference 1. *)
Definition sample_helpers : Helpers :=
  {| ImagePullPolicy c :=
       rainbondv1alpha1.PullPolicy (rainbondv1alpha1.ComponentSpec c);
     LabelsForRainbondComponent _ := 1%positive |}.

(** ** Sample inputs *)

Definition sample_component (namespace : string) : rainbondv1alpha1.RbdComponent :=
  {| rainbondv1alpha1.ComponentMeta :=
       {| metav1.Name := "metrics-server";
          metav1.Namespace := namespace;
          metav1.Labels := ∅ |};
     rainbondv1alpha1.ComponentSpec :=
       {| rainbondv1alpha1.Replicas := Some 1%Z;
          rainbondv1alpha1.Image := "goodrain.me/metrics-server:v0.3.6";
          rainbondv1alpha1.PullPolicy := "IfNotPresent" |} |}.

Definition sample_cluster (namespace : string) : rainbondv1alpha1.RainbondCluster :=
  {| rainbondv1alpha1.ObjectMeta :=
       {| metav1.Name := "rainbondcluster";
          metav1.Namespace := namespace;
          metav1.Labels := ∅ |};
     rainbondv1alpha1.Spec :=
       {| rainbondv1alpha1.RainbondImageRepositoryDomain := "goodrain.me";
          rainbondv1alpha1.ImageHub_ := None;
          rainbondv1alpha1.StorageClassName := "";
          rainbondv1alpha1.RegionDatabase := None;
          rainbondv1alpha1.UIDatabase := None;
          rainbondv1alpha1.EtcdConfig_ := None |};
     rainbondv1alpha1.Status := None |}.

(** A control plane without the singleton. *)
Definition empty_store : Store :=
  {| apiservices := ∅; services := ∅; pods := []; revision := 0; down := false |}.

(** The singleton of somebody else: it points at [other/other-svc], whose
    selector picks the pods labelled [k8s-app=metrics]. *)
Definition other_ref : kubeaggregatorv1beta1.ServiceReference :=
  {| kubeaggregatorv1beta1.Namespace := "other";
     kubeaggregatorv1beta1.Name := "other-svc" |}.

Definition other_apiservice : kubeaggregatorv1beta1.APIService :=
  {| kubeaggregatorv1beta1.ObjectName := metricsGroupAPI;
     kubeaggregatorv1beta1.ResourceVersion := "7";
     kubeaggregatorv1beta1.Spec :=
       {| kubeaggregatorv1beta1.Service := Some other_ref;
          kubeaggregatorv1beta1.Group := "metrics.k8s.io";
          kubeaggregatorv1beta1.Version := "v1beta1";
          kubeaggregatorv1beta1.InsecureSkipTLSVerify := false;
          kubeaggregatorv1beta1.GroupPriorityMinimum := 100;
          kubeaggregatorv1beta1.VersionPriority := 100 |} |}.

Definition other_service : corev1.Service LabelMap :=
  {| corev1.ObjectMeta :=
       {| metav1.Name := "other-svc";
          metav1.Namespace := "other";
          metav1.Labels := ∅ |};
     corev1.Spec :=
       {| corev1.Ports := [];
          corev1.Selector := {[ "k8s-app" := "metrics" ]} |} |}.

Definition foreign_store : Store :=
  {| apiservices := {[ metricsGroupAPI := other_apiservice ]};
     services := {[ ("other", "other-svc") := other_service ]};
     pods :=
       [ {| corev1.PodName := "metrics-abc";
            corev1.PodNamespace := "platform";
            corev1.PodLabels := {[ "k8s-app" := "metrics" ]} |};
         {| corev1.PodName := "metrics-server-xyz";
            corev1.PodNamespace := "platform";
            corev1.PodLabels := {[ "name" := "metrics-server" ]} |} ];
     revision := 7;
     down := false |}.

(** The start of a pass: the handler's label table holds the component's
    name, nothing has been requested yet. *)
Definition boot {W} (w : W) : Sys W :=
  {| heap := {[ 1%positive := {[ "name" := "metrics-server" ]} ]};
     world := w;
     calls := [] |}.

(** The handler of a pass in which component and cluster are both in the
    namespace [platform], and of one in which the component is in
    [rbd-system] and the cluster in [default]. *)
Definition platform_handler : metricsServer :=
  NewMetricsServer (H := sample_helpers)
    (sample_component "platform") (sample_cluster "platform").

Definition split_handler : metricsServer :=
  NewMetricsServer (H := sample_helpers)
    (sample_component "rbd-system") (sample_cluster "default").

(** The label table of the handler after [serviceForMetricsServer] has
    written its two keys into it. *)
Definition augment (h : Heap) (r : loc) : Heap :=
  assign (assign h r "kubernetes.io/name" "Metrics-server")
         r "kubernetes.io/cluster-service" "true".

Definition with_heap {W} (h : Heap) (s : Sys W) : Sys W :=
  {| heap := h; world := world s; calls := calls s |}.

(** The two keys [serviceForMetricsServer] assigns are in the table. *)
Definition has_service_keys (t : LabelMap) : Prop :=
  t !! "kubernetes.io/name" = Some "Metrics-server"
  ∧ t !! "kubernetes.io/cluster-service" = Some "true".

(** [err == nil] *)
Definition is_nil (e : error) : bool :=
  match e with
  | None => true
  | Some _ => false
  end.

(** ** Reading the log of requests *)

(** The requests that change the control plane. *)
Definition is_write (c : Call) : bool :=
  match c with
  | CreateCall _ | UpdateCall _ => true
  | GetCall _ _ | ListPodsCall _ _ => false
  end.

Definition writes (l : list Call) : nat := length (List.filter is_write l).

(** The requests logged between the states [s] and [s']. *)
Definition sent {W} (s s' : Sys W) : list Call :=
  drop (length (calls s)) (calls s').

(** The port a Service port forwards to is one the container listens on. *)
Definition targets_container_port (d : appsv1.Deployment loc)
    (p : corev1.ServicePort) : Prop :=
  Exists (λ c, Exists (λ cp, corev1.ContainerPort_ cp
                             = intstr.IntVal (corev1.TargetPort p))
                      (corev1.ContainerPorts c))
         (corev1.Containers (corev1.TemplateSpec (appsv1.Template (appsv1.Spec d)))).

(** ** More sample inputs *)

(** The singleton as the API server itself would serve the group: no
    back-reference. *)
Definition local_apiservice : kubeaggregatorv1beta1.APIService :=
  {| kubeaggregatorv1beta1.ObjectName := metricsGroupAPI;
     kubeaggregatorv1beta1.ResourceVersion := "3";
     kubeaggregatorv1beta1.Spec :=
       {| kubeaggregatorv1beta1.Service := None;
          kubeaggregatorv1beta1.Group := "metrics.k8s.io";
          kubeaggregatorv1beta1.Version := "v1beta1";
          kubeaggregatorv1beta1.InsecureSkipTLSVerify := false;
          kubeaggregatorv1beta1.GroupPriorityMinimum := 100;
          kubeaggregatorv1beta1.VersionPriority := 100 |} |}.

Definition local_store : Store :=
  {| apiservices := {[ metricsGroupAPI := local_apiservice ]};
     services := ∅; pods := []; revision := 3; down := false |}.

(** The control plane after the platform, in namespace [platform], has
    registered its singleton. *)
Definition own_store : Store :=
  store_put (apiserviceForMetricsServer platform_handler) empty_store.

(** A singleton that points at [platform/metrics-server] and is otherwise
    not what the platform builds. *)
Definition lookalike_apiservice : kubeaggregatorv1beta1.APIService :=
  {| kubeaggregatorv1beta1.ObjectName := metricsGroupAPI;
     kubeaggregatorv1beta1.ResourceVersion := "12";
     kubeaggregatorv1beta1.Spec :=
       {| kubeaggregatorv1beta1.Service :=
            Some {| kubeaggregatorv1beta1.Namespace := "platform";
                    kubeaggregatorv1beta1.Name := "metrics-server" |};
          kubeaggregatorv1beta1.Group := "metrics.k8s.io";
          kubeaggregatorv1beta1.Version := "v1beta1";
          kubeaggregatorv1beta1.InsecureSkipTLSVerify := false;
          kubeaggregatorv1beta1.GroupPriorityMinimum := 2000;
          kubeaggregatorv1beta1.VersionPriority := 1 |} |}.

Definition lookalike_store : Store :=
  {| apiservices := {[ metricsGroupAPI := lookalike_apiservice ]};
     services := ∅; pods := []; revision := 12; down := false |}.

(** The handler of an earlier pass that has seen the singleton of somebody
    else. *)
Definition deferring_handler : metricsServer :=
  set_apiservice other_apiservice platform_handler.

(** * Properties of the handler *)

Ltac run :=
  unfold Before, After, Resources, ListPods, serviceForMetricsServer,
    client_Get_APIService, client_Get_Service, client_Create, client_Update,
    listPods, request, map_assign, map_read, bind, ret, lift; simpl.

Section Properties.
Context {W : Type} `{!Client W} `{!Helpers}.
Implicit Types (m : metricsServer) (s : Sys W).

Lemma Sys_eta s : {| heap := heap s; world := world s; calls := calls s |} = s.
Proof. by destruct s. Qed.

(** ** The adoption decision *)

Lemma created_by_rainbond_nil m :
  apiservice m = None → apiServiceCreatedByRainbond m = Done true.
Proof. unfold apiServiceCreatedByRainbond. by intros ->. Qed.

Lemma created_by_rainbond_ref m a ref :
  apiservice m = Some a →
  kubeaggregatorv1beta1.Service (kubeaggregatorv1beta1.Spec a) = Some ref →
  apiServiceCreatedByRainbond m =
    Done (String.eqb (kubeaggregatorv1beta1.Namespace ref) (component_Namespace m)
          && String.eqb (kubeaggregatorv1beta1.Name ref) MetricsServerName).
Proof. unfold apiServiceCreatedByRainbond. by intros -> ->. Qed.

(** A singleton served by the API server itself has no back-reference, and
    the comparison dereferences it all the same. *)
Lemma created_by_rainbond_no_ref m a :
  apiservice m = Some a →
  kubeaggregatorv1beta1.Service (kubeaggregatorv1beta1.Spec a) = None →
  ∃ msg, apiServiceCreatedByRainbond m = Panic msg.
Proof. unfold apiServiceCreatedByRainbond. intros -> ->. by eexists. Qed.

Lemma foreign_ref_false (ns name ns' : string) :
  (ns, name) ≠ (ns', MetricsServerName) →
  String.eqb ns ns' && String.eqb name MetricsServerName = false.
Proof.
  intros Hne. apply andb_false_iff.
  destruct (String.eqb ns ns') eqn:Hns; [right | by left].
  apply String.eqb_eq in Hns as ->.
  apply String.eqb_neq. intros ->. by apply Hne.
Qed.

(** ** [Before] *)

Lemma Before_eq m s :
  Before m s =
    let '(r, w) := GetAPIService singleton_key (world s) in
    let s' := {| heap := heap s; world := w;
                 calls := calls s ++ [GetCall KindAPIService singleton_key] |} in
    match r with
    | Ok a => Done ((set_apiservice a m, None), s')
    | Err e =>
        Done ((m, if k8sErrors.IsNotFound e then None
                  else Some (Errorf "get apiservice(%s/%s): %v"
                               [MetricsServerName; cluster_Namespace m] e)), s')
    end.
Proof.
  run. destruct (GetAPIService singleton_key (world s)) as [[a|e] w]; simpl;
    [done|]. by destruct (k8sErrors.IsNotFound e).
Qed.

(** ** [Resources] *)

Lemma Resources_foreign m s :
  apiServiceCreatedByRainbond m = Done false → Resources m s = Done ([], s).
Proof. intros Hf. run. by rewrite Hf. Qed.

Lemma Resources_owned m :
  apiServiceCreatedByRainbond m = Done true →
  ∃ sv, (∀ s, Resources m s
              = Done ([deployment m; ServiceObject sv],
                      with_heap (augment (heap s) (labels m)) s))
      ∧ metav1.Labels (corev1.ObjectMeta sv) = labels m
      ∧ corev1.Selector (corev1.Spec sv) = labels m.
Proof.
  intros Ho. eexists. split.
  - intros s. run. rewrite Ho. simpl. reflexivity.
  - by split.
Qed.

(** The second pair of assignments finds the keys already there. *)
Lemma augment_lookup_name (h : Heap) (r : loc) :
  deref (augment h r) r !! "kubernetes.io/name" = Some "Metrics-server".
Proof.
  unfold augment, assign, deref at 1. rewrite lookup_insert_eq. simpl.
  rewrite lookup_insert_ne; [|discriminate].
  unfold deref at 1. rewrite lookup_insert_eq. simpl. by rewrite lookup_insert_eq.
Qed.

Lemma augment_lookup_cluster_service (h : Heap) (r : loc) :
  deref (augment h r) r !! "kubernetes.io/cluster-service" = Some "true".
Proof.
  unfold augment, assign, deref at 1. rewrite lookup_insert_eq. simpl.
  by rewrite lookup_insert_eq.
Qed.

Lemma assign_id (h : Heap) (r : loc) (k v : string) :
  is_Some (h !! r) → deref h r !! k = Some v → assign h r k v = h.
Proof.
  intros [t Ht] Hk. unfold assign. unfold deref in *. rewrite Ht in *. simpl in *.
  rewrite (insert_id t k v Hk). by apply insert_id.
Qed.

Lemma augment_allocated (h : Heap) (r : loc) : is_Some (augment h r !! r).
Proof. unfold augment, assign. rewrite lookup_insert_eq. by eexists. Qed.

Lemma augment_idem (h : Heap) (r : loc) : augment (augment h r) r = augment h r.
Proof.
  unfold augment at 1.
  rewrite (assign_id (augment h r) r "kubernetes.io/name" "Metrics-server");
    [| apply augment_allocated | apply augment_lookup_name].
  apply assign_id; [apply augment_allocated | apply augment_lookup_cluster_service].
Qed.

Lemma augment_other (h : Heap) (r r' : loc) :
  r ≠ r' → deref (augment h r) r' = deref h r'.
Proof.
  intros Hne. unfold augment, assign, deref at 1.
  by rewrite !lookup_insert_ne.
Qed.

(** ** [After] *)

Lemma After_foreign m s :
  apiServiceCreatedByRainbond m = Done false → After m s = Done (None, s).
Proof. intros Hf. run. by rewrite Hf. Qed.

Lemma After_owned m s :
  apiServiceCreatedByRainbond m = Done true →
  After m s =
    let new := apiserviceForMetricsServer m in
    let '(r, w) := GetAPIService singleton_key (world s) in
    let log := calls s ++ [GetCall KindAPIService singleton_key] in
    match r with
    | Err e =>
        if k8sErrors.IsNotFound e then
          let '(e', w') := Create new w in
          Done (match e' with
                | Some e' => Some (Errorf "create new api service: %v" [] e')
                | None => None
                end,
                {| heap := heap s; world := w'; calls := log ++ [CreateCall new] |})
        else
          Done (Some (Errorf "get apiservice(%s/%s): %v"
                        [MetricsServerName; cluster_Namespace m] e),
                {| heap := heap s; world := w; calls := log |})
    | Ok cur =>
        let new' :=
          kubeaggregatorv1beta1.with_ResourceVersion
            (kubeaggregatorv1beta1.ResourceVersion cur) new in
        let '(e', w') := Update new' w in
        Done (match e' with
              | Some e' => Some (Errorf "update api service: %v" [] e')
              | None => None
              end,
              {| heap := heap s; world := w'; calls := log ++ [UpdateCall new'] |})
    end.
Proof.
  intros Ho. run. rewrite Ho. simpl.
  destruct (GetAPIService singleton_key (world s)) as [[cur|e] w]; simpl.
  - by destruct (Update _ w) as [[e'|] w'].
  - destruct (k8sErrors.IsNotFound e); simpl; [|done].
    by destruct (Create _ w) as [[e'|] w'].
Qed.

(** ** [ListPods] *)

Lemma ListPods_foreign m s a ref :
  apiservice m = Some a →
  kubeaggregatorv1beta1.Service (kubeaggregatorv1beta1.Spec a) = Some ref →
  apiServiceCreatedByRainbond m = Done false →
  ListPods m s =
    let key := {| types.Namespace := kubeaggregatorv1beta1.Namespace ref;
                  types.Name := kubeaggregatorv1beta1.Name ref |} in
    let '(r, w) := GetService key (world s) in
    let log := calls s ++ [GetCall KindService key] in
    match r with
    | Err e =>
        Done (([], Some (Errorf "get svc based on apiservice: %v" [] e)),
              {| heap := heap s; world := w; calls := log |})
    | Ok svc =>
        let selector := corev1.Selector (corev1.Spec svc) in
        let '(out, w') := ListPodsOf (component_Namespace m) selector w in
        Done (out, {| heap := heap s; world := w';
                      calls := log ++ [ListPodsCall (component_Namespace m) selector] |})
    end.
Proof.
  intros Ha Href Hf. run. rewrite Hf, Ha, Href. simpl.
  destruct (GetService _ (world s)) as [[svc|e] w]; simpl; [|done].
  by destruct (ListPodsOf _ _ w).
Qed.

Lemma ListPods_owned m s :
  apiServiceCreatedByRainbond m = Done true →
  ListPods m s =
    let selector := deref (heap s) (labels m) in
    let '(out, w) := ListPodsOf (component_Namespace m) selector (world s) in
    Done (out, {| heap := heap s; world := w;
                  calls := calls s ++ [ListPodsCall (component_Namespace m) selector] |}).
Proof. intros Ho. run. rewrite Ho. simpl. by destruct (ListPodsOf _ _ (world s)). Qed.

(** ** The claims *)

(** C7. Before sends one request, the Get of the singleton, and nothing
    else; it leaves the heap alone. Its error is nil when the Get succeeds
    or reports NotFound, and is the wrapped cause for every other failure of
    the Get. *)
Theorem Before_error_discipline m s :
  ∃ m' e s',
    Before m s = Done ((m', e), s')
    ∧ calls s' = calls s ++ [GetCall KindAPIService singleton_key]
    ∧ heap s' = heap s
    ∧ e = match (GetAPIService singleton_key (world s)).1 with
          | Ok _ => None
          | Err ce =>
              if k8sErrors.IsNotFound ce then None
              else Some (Errorf "get apiservice(%s/%s): %v"
                           [MetricsServerName; cluster_Namespace m] ce)
          end
    ∧ is_nil e = match (GetAPIService singleton_key (world s)).1 with
                 | Ok _ => true
                 | Err ce => k8sErrors.IsNotFound ce
                 end.
Proof.
  rewrite Before_eq.
  destruct (GetAPIService singleton_key (world s)) as [[a|ce] w]; simpl.
  - by eexists _, _, _.
  - eexists _, _, _. split_and!; try done. by destruct (k8sErrors.IsNotFound ce).
Qed.

(** C1. When Before has seen a singleton whose back-reference is not
    (component namespace, "metrics-server"), the handler is not the owner:
    Resources is empty, After returns nil and requests nothing, and ListPods
    gets the service the back-reference names and lists the pods of the
    component's namespace with that service's selector, whatever the
    handler's own label table holds. *)
Theorem foreign_singleton_deference m0 s0 a ref :
  (GetAPIService singleton_key (world s0)).1 = Ok a →
  kubeaggregatorv1beta1.Service (kubeaggregatorv1beta1.Spec a) = Some ref →
  (kubeaggregatorv1beta1.Namespace ref, kubeaggregatorv1beta1.Name ref)
    ≠ (component_Namespace m0, MetricsServerName) →
  let key := {| types.Namespace := kubeaggregatorv1beta1.Namespace ref;
                types.Name := kubeaggregatorv1beta1.Name ref |} in
  ∃ m s1,
    Before m0 s0 = Done ((m, None), s1)
    ∧ apiServiceCreatedByRainbond m = Done false
    ∧ (∀ s, Resources m s = Done ([], s))
    ∧ (∀ s, After m s = Done (None, s))
    ∧ (∀ s, ∃ out s',
         ListPods m s = Done (out, s')
         ∧ heap s' = heap s
         ∧ calls s' = calls s ++ GetCall KindService key ::
             match (GetService key (world s)).1 with
             | Ok svc => [ListPodsCall (component_Namespace m0)
                            (corev1.Selector (corev1.Spec svc))]
             | Err _ => []
             end
         ∧ out = match GetService key (world s) with
                 | (Ok svc, w) =>
                     (ListPodsOf (component_Namespace m0)
                        (corev1.Selector (corev1.Spec svc)) w).1
                 | (Err e, _) =>
                     ([], Some (Errorf "get svc based on apiservice: %v" [] e))
                 end).
Proof.
  intros Hget Href Hne key. rewrite Before_eq.
  destruct (GetAPIService singleton_key (world s0)) as [r w] eqn:Hg.
  simpl in Hget. subst r. eexists _, _. split; [done|].
  assert (Hf : apiServiceCreatedByRainbond (set_apiservice a m0) = Done false).
  { rewrite (created_by_rainbond_ref _ a ref); [|done..].
    f_equal. by apply foreign_ref_false. }
  split_and!; [done | | |].
  - intros s. by apply Resources_foreign.
  - intros s. by apply After_foreign.
  - intros s. rewrite (ListPods_foreign _ s a ref); [|done..]. cbv zeta. fold key.
    destruct (GetService key (world s)) as [[svc|e] w']; simpl.
    + destruct (ListPodsOf _ _ w') as [out w''] eqn:Hl.
      eexists _, _. split_and!; try done. simpl. by rewrite <-(assoc_L (++)).
    + by eexists _, _.
Qed.

(** C2. A handler that holds no earlier observation (as NewMetricsServer
    makes it) and whose Before gets NotFound for the singleton is the owner,
    and its Resources returns two objects, the Deployment and the Service. *)
Theorem adoption_default m0 s0 ce :
  apiservice m0 = None →
  (GetAPIService singleton_key (world s0)).1 = Err ce →
  k8sErrors.IsNotFound ce = true →
  ∃ m s1,
    Before m0 s0 = Done ((m, None), s1)
    ∧ apiServiceCreatedByRainbond m = Done true
    ∧ (∀ s, ∃ d sv s',
         Resources m s = Done ([DeploymentObject d; ServiceObject sv], s')).
Proof.
  intros Hnil Hget Hnf. rewrite Before_eq.
  destruct (GetAPIService singleton_key (world s0)) as [r w] eqn:Hg.
  simpl in Hget. subst r. rewrite Hnf. eexists _, _. split; [done|].
  pose proof (created_by_rainbond_nil m0 Hnil) as Ho. split; [done|].
  intros s. destruct (Resources_owned m0 Ho) as (sv & -> & _).
  by eexists _, _, _.
Qed.

(** C4. An owning handler's After gets the singleton first. On NotFound it
    creates the freshly built object, whose revision token is empty; when
    the singleton is there it updates with the built object carrying the
    revision token of the object just read; on any other failure of the Get
    it requests nothing more. So every update it sends carries the token it
    has just observed. *)
Theorem After_create_then_update m s :
  apiServiceCreatedByRainbond m = Done true →
  let new := apiserviceForMetricsServer m in
  let got := (GetAPIService singleton_key (world s)).1 in
  ∃ e s',
    After m s = Done (e, s')
    ∧ kubeaggregatorv1beta1.ResourceVersion new = ""
    ∧ calls s' = calls s ++ GetCall KindAPIService singleton_key ::
        match got with
        | Err ce => if k8sErrors.IsNotFound ce then [CreateCall new] else []
        | Ok cur =>
            [UpdateCall (kubeaggregatorv1beta1.with_ResourceVersion
                           (kubeaggregatorv1beta1.ResourceVersion cur) new)]
        end
    ∧ (∀ obj, UpdateCall obj ∈ drop (length (calls s)) (calls s') →
         ∃ cur, got = Ok cur
                ∧ kubeaggregatorv1beta1.ResourceVersion obj
                  = kubeaggregatorv1beta1.ResourceVersion cur).
Proof.
  intros Ho new got. rewrite (After_owned m s Ho). subst got. fold new.
  destruct (GetAPIService singleton_key (world s)) as [[cur|ce] w]; simpl.
  - destruct (Update _ w) as [e' w']. eexists _, _.
    split_and!; [done | done | simpl; by rewrite <-(assoc_L (++)) |].
    intros obj. simpl. rewrite <-(assoc_L (++)), drop_app_length. simpl.
    intros Hin. exists cur. split; [done|].
    apply list_elem_of_In in Hin. simpl in Hin.
    destruct Hin as [Hin | [Hin | []]]; [done|]. by injection Hin as <-.
  - destruct (k8sErrors.IsNotFound ce).
    + destruct (Create _ w) as [e' w']. eexists _, _.
      split_and!; [done | done | simpl; by rewrite <-(assoc_L (++)) |].
      intros obj. simpl. rewrite <-(assoc_L (++)), drop_app_length. simpl.
      intros Hin. apply list_elem_of_In in Hin. simpl in Hin.
      by destruct Hin as [Hin | [Hin | []]].
    + eexists _, _. split_and!; [done | done | done |].
      intros obj. simpl. rewrite drop_app_length.
      intros Hin. apply list_elem_of_In in Hin. simpl in Hin.
      by destruct Hin as [Hin | []].
Qed.

Lemma deref_augment (h : Heap) (r : loc) :
  deref (augment h r) r
  = <["kubernetes.io/cluster-service" := "true"]>
      (<["kubernetes.io/name" := "Metrics-server"]> (deref h r)).
Proof.
  unfold augment, assign, deref at 1. rewrite lookup_insert_eq. simpl.
  unfold deref at 1. by rewrite lookup_insert_eq.
Qed.

Lemma augment_has_service_keys (h : Heap) (r : loc) :
  has_service_keys (deref (augment h r) r).
Proof.
  split; [apply augment_lookup_name | apply augment_lookup_cluster_service].
Qed.

(** What Resources returns, by the adoption decision. *)
Lemma Resources_inv m s objs s' :
  Resources m s = Done (objs, s') →
  (apiServiceCreatedByRainbond m = Done false ∧ objs = [])
  ∨ (apiServiceCreatedByRainbond m = Done true
     ∧ ∃ sv, objs = [deployment m; ServiceObject sv]
             ∧ s' = with_heap (augment (heap s) (labels m)) s).
Proof.
  destruct (apiServiceCreatedByRainbond m) as [[|]|msg] eqn:Hd.
  - destruct (Resources_owned m Hd) as (sv & -> & _).
    intros [= <- <-]. right. eauto.
  - rewrite (Resources_foreign m s Hd). intros [= <- <-]. by left.
  - run. by rewrite Hd.
Qed.

(** C6. With the adoption decision fixed, a second call of Resources
    returns the same objects as the first and leaves the state as the first
    call left it, so the two object sets say the same, each read when its
    call returns. *)
Theorem Resources_idempotent m s owned :
  apiServiceCreatedByRainbond m = Done owned →
  ∃ objs1 s1 objs2 s2,
    Resources m s = Done (objs1, s1)
    ∧ Resources m s1 = Done (objs2, s2)
    ∧ render (heap s1) <$> objs1 = render (heap s2) <$> objs2
    ∧ objs1 = objs2
    ∧ s2 = s1.
Proof.
  intros Hd. destruct owned.
  - destruct (Resources_owned m Hd) as (sv & Hr & _).
    assert (Hagain : Resources m (with_heap (augment (heap s) (labels m)) s)
                     = Done ([deployment m; ServiceObject sv],
                             with_heap (augment (heap s) (labels m)) s)).
    { rewrite Hr. unfold with_heap. simpl. by rewrite augment_idem. }
    eexists _, _, _, _. split; [apply Hr|]. split; [apply Hagain|]. done.
  - eexists _, _, _, _. split; [by apply Resources_foreign|].
    split; [by apply Resources_foreign|]. done.
Qed.

(** C8. For an owning handler the Deployment and the Service that
    Resources returns hold the handler's label map itself in all five label
    fields; the service helper writes its two keys into that map, so when
    Resources has returned they are read through the Deployment's labels,
    selector and pod template as well as through the Service's labels and
    selector. *)
Theorem label_map_aliasing m s :
  apiServiceCreatedByRainbond m = Done true →
  ∃ d sv s',
    Resources m s = Done ([DeploymentObject d; ServiceObject sv], s')
    ∧ metav1.Labels (appsv1.ObjectMeta d) = labels m
    ∧ appsv1.Selector (appsv1.Spec d) = Some {| metav1.MatchLabels := labels m |}
    ∧ metav1.Labels (corev1.TemplateMeta (appsv1.Template (appsv1.Spec d))) = labels m
    ∧ metav1.Labels (corev1.ObjectMeta sv) = labels m
    ∧ corev1.Selector (corev1.Spec sv) = labels m
    ∧ deref (heap s') (labels m)
      = <["kubernetes.io/cluster-service" := "true"]>
          (<["kubernetes.io/name" := "Metrics-server"]> (deref (heap s) (labels m)))
    ∧ (let rd := render_deployment (heap s') d in
       let rs := render_service (heap s') sv in
       has_service_keys (metav1.Labels (appsv1.ObjectMeta rd))
       ∧ (∃ sel, appsv1.Selector (appsv1.Spec rd) = Some sel
                 ∧ has_service_keys (metav1.MatchLabels sel))
       ∧ has_service_keys
           (metav1.Labels (corev1.TemplateMeta (appsv1.Template (appsv1.Spec rd))))
       ∧ has_service_keys (metav1.Labels (corev1.ObjectMeta rs))
       ∧ has_service_keys (corev1.Selector (corev1.Spec rs))).
Proof.
  intros Ho. destruct (Resources_owned m Ho) as (sv & Hr & Hl & Hs).
  unfold deployment in Hr. eexists _, sv, _. split; [apply Hr|].
  destruct sv as [[svn svns svl] [svp svs]]. simpl in *. subst svl svs.
  split_and!; try done; simpl.
  - apply deref_augment.
  - apply augment_has_service_keys.
  - eexists. split; [done|]. apply augment_has_service_keys.
  - apply augment_has_service_keys.
  - apply augment_has_service_keys.
  - apply augment_has_service_keys.
Qed.

(** C9. In every Deployment that Resources returns, the selector's
    matchLabels and the pod template's labels are one and the same map, so
    they read the same in every heap: when the Deployment is built, and
    after the service helper has added its keys. *)
Theorem deployment_selects_its_pods m s objs s' d :
  Resources m s = Done (objs, s') →
  DeploymentObject d ∈ objs →
  appsv1.Selector (appsv1.Spec d)
    = Some {| metav1.MatchLabels :=
                metav1.Labels (corev1.TemplateMeta (appsv1.Template (appsv1.Spec d))) |}
  ∧ (∀ h : Heap,
       appsv1.Selector (appsv1.Spec (render_deployment h d))
       = Some {| metav1.MatchLabels :=
                   metav1.Labels
                     (corev1.TemplateMeta
                        (appsv1.Template (appsv1.Spec (render_deployment h d)))) |})
  ∧ has_service_keys
      (metav1.Labels
         (corev1.TemplateMeta
            (appsv1.Template (appsv1.Spec (render_deployment (heap s') d))))).
Proof.
  intros Hr Hin.
  destruct (Resources_inv m s objs s' Hr) as [[_ ->] | (_ & sv & -> & ->)].
  - by apply elem_of_nil in Hin.
  - apply list_elem_of_In in Hin. simpl in Hin.
    destruct Hin as [Hin | [Hin | []]]; [|done].
    unfold deployment in Hin. injection Hin as <-. simpl.
    split_and!; [done | done |]. apply augment_has_service_keys.
Qed.


(** Resources of an owning handler changes the handler's label table
    whenever the table does not hold the Service's name key already. *)
Lemma Resources_owned_changes_labels m s objs s' :
  apiServiceCreatedByRainbond m = Done true →
  deref (heap s) (labels m) !! "kubernetes.io/name" ≠ Some "Metrics-server" →
  Resources m s = Done (objs, s') →
  deref (heap s') (labels m) ≠ deref (heap s) (labels m).
Proof.
  intros Ho Hno Hr.
  destruct (Resources_inv m s objs s' Hr) as [[Hf _] | (_ & sv & _ & ->)].
  - rewrite Ho in Hf. discriminate Hf.
  - simpl. intros Heq. apply Hno. rewrite <-Heq. apply augment_lookup_name.
Qed.

(** Before recognises the singleton that After builds exactly when the
    cluster and the component are in one namespace: the back-reference is
    written with the cluster's namespace and compared with the component's. *)
Lemma own_singleton_recognition m s a :
  (GetAPIService singleton_key (world s)).1 = Ok a →
  kubeaggregatorv1beta1.Spec a
    = kubeaggregatorv1beta1.Spec (apiserviceForMetricsServer m) →
  ∃ m' s',
    Before m s = Done ((m', None), s')
    ∧ apiServiceCreatedByRainbond m'
      = Done (String.eqb (cluster_Namespace m) (component_Namespace m)).
Proof.
  intros Hget Hspec. rewrite Before_eq.
  destruct (GetAPIService singleton_key (world s)) as [r w].
  simpl in Hget. subst r. eexists _, _. split; [done|].
  unfold apiServiceCreatedByRainbond. simpl. rewrite Hspec. simpl.
  by rewrite andb_true_r.
Qed.

End Properties.

(** * Further properties of the handler *)

Section Lifecycle.
Context {W : Type} `{!Client W} `{!Helpers}.
Implicit Types (m : metricsServer) (s : Sys W).

Lemma sent_app s s' (new : list Call) :
  calls s' = calls s ++ new → sent s s' = new.
Proof. unfold sent. intros ->. apply drop_app_length. Qed.

Lemma sent_refl s : sent s s = [].
Proof. apply sent_app. by rewrite app_nil_r. Qed.

Lemma sent_spec s s' (new : list Call) :
  calls s' = calls s ++ new →
  calls s' = calls s ++ sent s s' ∧ sent s s' = new.
Proof. intros Hc. by rewrite (sent_app s s' new Hc). Qed.

(** What a run of After, of an owner, has sent. *)
Lemma After_owned_sent m s e s' :
  apiServiceCreatedByRainbond m = Done true →
  After m s = Done (e, s') →
  heap s' = heap s
  ∧ calls s' = calls s ++ sent s s'
  ∧ sent s s' = GetCall KindAPIService singleton_key ::
      match (GetAPIService singleton_key (world s)).1 with
      | Err ce =>
          if k8sErrors.IsNotFound ce
          then [CreateCall (apiserviceForMetricsServer m)] else []
      | Ok cur =>
          [UpdateCall (kubeaggregatorv1beta1.with_ResourceVersion
                         (kubeaggregatorv1beta1.ResourceVersion cur)
                         (apiserviceForMetricsServer m))]
      end.
Proof.
  intros Ho. rewrite (After_owned m s Ho).
  destruct (GetAPIService singleton_key (world s)) as [[cur|ce] w]; simpl.
  - destruct (Update _ w) as [e' w']. intros [= _ <-].
    split; [done|]. apply sent_spec. simpl. by rewrite <-(assoc_L (++)).
  - destruct (k8sErrors.IsNotFound ce).
    + destruct (Create _ w) as [e' w']. intros [= _ <-].
      split; [done|]. apply sent_spec. simpl. by rewrite <-(assoc_L (++)).
    + intros [= _ <-]. split; [done|]. by apply sent_spec.
Qed.

(** What a run of ListPods has sent. *)
Lemma ListPods_sent m s out s' :
  ListPods m s = Done (out, s') →
  heap s' = heap s
  ∧ calls s' = calls s ++ sent s s'
  ∧ ((apiServiceCreatedByRainbond m = Done true
      ∧ sent s s' = [ListPodsCall (component_Namespace m)
                       (deref (heap s) (labels m))])
     ∨ (apiServiceCreatedByRainbond m = Done false
        ∧ ∃ key, sent s s' = [GetCall KindService key]
                 ∨ ∃ selector,
                     sent s s' = [GetCall KindService key;
                                  ListPodsCall (component_Namespace m) selector])).
Proof.
  destruct (apiServiceCreatedByRainbond m) as [[|]|msg] eqn:Hd.
  - rewrite (ListPods_owned m s Hd). cbv zeta.
    destruct (ListPodsOf _ _ (world s)) as [o w]. intros [= _ <-].
    split; [done|]. erewrite (sent_app s _ [_]); [|done].
    split; [done|]. by left.
  - unfold apiServiceCreatedByRainbond in Hd.
    destruct (apiservice m) as [a|] eqn:Ha; [|done].
    destruct (kubeaggregatorv1beta1.Service (kubeaggregatorv1beta1.Spec a))
      as [ref|] eqn:Href; [|done].
    rewrite (ListPods_foreign m s a ref Ha Href);
      [|by unfold apiServiceCreatedByRainbond; rewrite Ha, Href].
    cbv zeta. destruct (GetService _ (world s)) as [[svc|e] w]; simpl.
    + destruct (ListPodsOf _ _ w) as [o w']. intros [= _ <-].
      split; [done|].
      erewrite (sent_app s _ [_; _]); [|simpl; by rewrite <-(assoc_L (++))].
      split; [simpl; by rewrite <-(assoc_L (++))|].
      right. split; [done|]. eexists. right. by eexists.
    + intros [= _ <-]. split; [done|].
      erewrite (sent_app s _ [_]); [|done].
      split; [done|]. right. split; [done|]. eexists. by left.
  - run. by rewrite Hd.
Qed.

(** X1. Adoption goes by the back-reference alone. When Before reads a
    singleton whose back-reference is (component namespace,
    "metrics-server"), the handler is the owner whatever else the object
    says: Resources returns the Deployment and the Service, and an After
    that finds the singleton sends an update with the spec it has built
    itself and the revision token just read. *)
Theorem matching_singleton_adopted m0 s0 a ref :
  (GetAPIService singleton_key (world s0)).1 = Ok a →
  kubeaggregatorv1beta1.Service (kubeaggregatorv1beta1.Spec a) = Some ref →
  kubeaggregatorv1beta1.Namespace ref = component_Namespace m0 →
  kubeaggregatorv1beta1.Name ref = MetricsServerName →
  ∃ m s1,
    Before m0 s0 = Done ((m, None), s1)
    ∧ apiServiceCreatedByRainbond m = Done true
    ∧ (∀ s, ∃ d sv s',
         Resources m s = Done ([DeploymentObject d; ServiceObject sv], s'))
    ∧ (∀ s, ∃ e s',
         After m s = Done (e, s')
         ∧ sent s s' = GetCall KindAPIService singleton_key ::
             match (GetAPIService singleton_key (world s)).1 with
             | Err ce =>
                 if k8sErrors.IsNotFound ce
                 then [CreateCall (apiserviceForMetricsServer m0)] else []
             | Ok cur =>
                 [UpdateCall
                    {| kubeaggregatorv1beta1.ObjectName := metricsGroupAPI;
                       kubeaggregatorv1beta1.ResourceVersion :=
                         kubeaggregatorv1beta1.ResourceVersion cur;
                       kubeaggregatorv1beta1.Spec :=
                         kubeaggregatorv1beta1.Spec
                           (apiserviceForMetricsServer m0) |}]
             end).
Proof.
  intros Hget Href Hns Hname. rewrite Before_eq.
  destruct (GetAPIService singleton_key (world s0)) as [r w].
  simpl in Hget. subst r. eexists _, _. split; [done|].
  assert (Ho : apiServiceCreatedByRainbond (set_apiservice a m0) = Done true).
  { rewrite (created_by_rainbond_ref _ a ref); [|done..].
    rewrite Hns, Hname. f_equal. unfold component_Namespace. simpl.
    by rewrite !String.eqb_refl. }
  split; [done|]. split.
  - intros s. destruct (Resources_owned (W := W) _ Ho) as (sv & -> & _).
    by eexists _, _, _.
  - intros s. destruct (After (set_apiservice a m0) s) as [[e s']|msg] eqn:HA.
    + exists e, s'. split; [done|].
      by destruct (After_owned_sent _ _ _ _ Ho HA) as (_ & _ & ->).
    + rewrite (After_owned _ s Ho) in HA.
      destruct (GetAPIService singleton_key (world s)) as [[cur|ce] w'];
        simpl in HA.
      * by destruct (Update _ w').
      * destruct (k8sErrors.IsNotFound ce); [|done]. by destruct (Create _ w').
Qed.

(** X2. A singleton without a back-reference stops the handler. Before
    stores it and returns nil; from then on Resources, After and ListPods
    all panic on the nil pointer, in every state. *)
Theorem singleton_without_backreference_panics m0 s0 a :
  (GetAPIService singleton_key (world s0)).1 = Ok a →
  kubeaggregatorv1beta1.Service (kubeaggregatorv1beta1.Spec a) = None →
  ∃ m s1,
    Before m0 s0 = Done ((m, None), s1)
    ∧ apiservice m = Some a
    ∧ ∀ s, (∃ msg, Resources m s = Panic msg)
           ∧ (∃ msg, After m s = Panic msg)
           ∧ (∃ msg, ListPods m s = Panic msg).
Proof.
  intros Hget Hnone. rewrite Before_eq.
  destruct (GetAPIService singleton_key (world s0)) as [r w].
  simpl in Hget. subst r. eexists _, _. split; [done|]. split; [done|].
  destruct (created_by_rainbond_no_ref (set_apiservice a m0) a eq_refl Hnone)
    as [msg Hp].
  intros s. split_and!; exists msg; run; by rewrite Hp.
Qed.

(** X3. Before changes nothing of the handler but the stored observation,
    and that only when the Get succeeds: on NotFound and on every other
    failure the handler comes back as it was, an earlier observation
    included. *)
Theorem Before_frame m s :
  ∃ m' e s',
    Before m s = Done ((m', e), s')
    ∧ db m' = db m
    ∧ labels m' = labels m
    ∧ component m' = component m
    ∧ cluster m' = cluster m
    ∧ apiservice m'
      = match (GetAPIService singleton_key (world s)).1 with
        | Ok a => Some a
        | Err _ => apiservice m
        end
    ∧ m' = match (GetAPIService singleton_key (world s)).1 with
           | Ok a => set_apiservice a m
           | Err _ => m
           end.
Proof.
  rewrite Before_eq.
  destruct (GetAPIService singleton_key (world s)) as [[a|ce] w]; simpl;
    by eexists _, _, _.
Qed.

(** X4. An observation outlives the singleton. A handler that holds a
    foreign singleton from an earlier Before and whose next Before gets
    NotFound keeps deferring: Before returns nil, the decision stays false
    and Resources returns nothing. *)
Theorem earlier_observation_survives_NotFound m s a ref ce :
  apiservice m = Some a →
  kubeaggregatorv1beta1.Service (kubeaggregatorv1beta1.Spec a) = Some ref →
  (kubeaggregatorv1beta1.Namespace ref, kubeaggregatorv1beta1.Name ref)
    ≠ (component_Namespace m, MetricsServerName) →
  (GetAPIService singleton_key (world s)).1 = Err ce →
  k8sErrors.IsNotFound ce = true →
  ∃ s',
    Before m s = Done ((m, None), s')
    ∧ apiServiceCreatedByRainbond m = Done false
    ∧ Resources m s' = Done ([], s')
    ∧ After m s' = Done (None, s').
Proof.
  intros Ha Href Hne Hget Hnf. rewrite Before_eq.
  destruct (GetAPIService singleton_key (world s)) as [r w].
  simpl in Hget. subst r. rewrite Hnf. eexists. split; [done|].
  assert (Hf : apiServiceCreatedByRainbond m = Done false).
  { rewrite (created_by_rainbond_ref _ a ref); [|done..].
    f_equal. by apply foreign_ref_false. }
  split_and!; [done | by apply Resources_foreign | by apply After_foreign].
Qed.

(** X5. Before is idempotent: run again on the handler it has returned,
    against a control plane that answers the Get as before, it returns the
    same handler and the same error. *)
Theorem Before_idempotent m s m1 e1 s1 :
  Before m s = Done ((m1, e1), s1) →
  (GetAPIService singleton_key (world s1)).1
    = (GetAPIService singleton_key (world s)).1 →
  ∃ s2, Before m1 s1 = Done ((m1, e1), s2).
Proof.
  rewrite !Before_eq.
  destruct (GetAPIService singleton_key (world s)) as [r w].
  destruct (GetAPIService singleton_key (world s1)) as [r1 w1]. simpl.
  intros Hb ->. destruct r as [a|ce]; simpl in *.
  - injection Hb as <- <- _. by eexists.
  - injection Hb as <- <- _. by eexists.
Qed.

(** What a run of Before has sent. *)
Lemma Before_sent m s r s' :
  Before m s = Done (r, s') →
  heap s' = heap s
  ∧ calls s' = calls s ++ sent s s'
  ∧ sent s s' = [GetCall KindAPIService singleton_key].
Proof.
  rewrite Before_eq.
  destruct (GetAPIService singleton_key (world s)) as [[a|ce] w]; simpl;
    intros [= _ <-]; (split; [done|]); by apply sent_spec.
Qed.

(** X6. The effects of the four operations are kept apart. Resources works
    on the label tables only: it sends no request and leaves the control
    plane as it is. Before, After and ListPods work on the control plane
    only: they leave every label table as it is. *)
Theorem effects_are_separate m s :
  match Resources m s with
  | Done (_, s') => world s' = world s ∧ calls s' = calls s
  | Panic _ => True
  end
  ∧ match Before m s with
    | Done (_, s') => heap s' = heap s
    | Panic _ => False
    end
  ∧ match After m s with
    | Done (_, s') => heap s' = heap s
    | Panic _ => True
    end
  ∧ match ListPods m s with
    | Done (_, s') => heap s' = heap s
    | Panic _ => True
    end.
Proof.
  split_and!.
  - destruct (Resources m s) as [[objs s']|msg] eqn:Hr; [|done].
    destruct (Resources_inv m s objs s' Hr) as [[Hf ->] | (_ & sv & _ & ->)].
    + rewrite (Resources_foreign m s Hf) in Hr. by injection Hr as <-.
    + done.
  - destruct (Before m s) as [[r s']|msg] eqn:Hb.
    + by destruct (Before_sent m s r s' Hb) as [-> _].
    + rewrite Before_eq in Hb.
      by destruct (GetAPIService singleton_key (world s)) as [[a|ce] w].
  - destruct (After m s) as [[e s']|msg] eqn:Ha; [|done].
    destruct (apiServiceCreatedByRainbond m) as [[|]|msg] eqn:Hd.
    + by destruct (After_owned_sent m s e s' Hd Ha) as [-> _].
    + rewrite (After_foreign m s Hd) in Ha. by injection Ha as _ <-.
    + revert Ha. run. by rewrite Hd.
  - destruct (ListPods m s) as [[out s']|msg] eqn:Hl; [|done].
    by destruct (ListPods_sent m s out s' Hl) as [-> _].
Qed.

(** X7. Only After writes, and once at most. In every run the log grows
    by what the run sends. Before sends exactly one request, the Get of the
    singleton. Resources sends nothing. ListPods sends no create and no
    update. After sends nothing at all, or the Get of the singleton followed
    by at most one more request, which is then a create or an update. *)
Theorem writes_only_in_After m s :
  match Before m s with
  | Done (_, s') =>
      calls s' = calls s ++ sent s s'
      ∧ sent s s' = [GetCall KindAPIService singleton_key]
  | Panic _ => False
  end
  ∧ match Resources m s with
    | Done (_, s') => calls s' = calls s ++ sent s s' ∧ sent s s' = []
    | Panic _ => True
    end
  ∧ match ListPods m s with
    | Done (_, s') => calls s' = calls s ++ sent s s' ∧ writes (sent s s') = 0
    | Panic _ => True
    end
  ∧ match After m s with
    | Done (_, s') =>
        calls s' = calls s ++ sent s s'
        ∧ (writes (sent s s') ≤ 1)%nat
        ∧ (sent s s' = []
           ∨ ∃ rest, sent s s' = GetCall KindAPIService singleton_key :: rest
                     ∧ (length rest ≤ 1)%nat
                     ∧ writes rest = length rest)
    | Panic _ => True
    end.
Proof.
  split_and!.
  - destruct (Before m s) as [[r s']|msg] eqn:Hb.
    + by destruct (Before_sent m s r s' Hb) as (_ & Hc & Hs).
    + rewrite Before_eq in Hb.
      by destruct (GetAPIService singleton_key (world s)) as [[a|ce] w].
  - destruct (Resources m s) as [[objs s']|msg] eqn:Hr; [|done].
    apply sent_spec.
    destruct (Resources_inv m s objs s' Hr) as [[Hf ->] | (_ & sv & _ & ->)].
    + rewrite (Resources_foreign m s Hf) in Hr. injection Hr as <-.
      by rewrite app_nil_r.
    + simpl. by rewrite app_nil_r.
  - destruct (ListPods m s) as [[out s']|msg] eqn:Hl; [|done].
    destruct (ListPods_sent m s out s' Hl)
      as (_ & Hc & [[_ Hs] | [_ [key [Hs | [sel Hs]]]]]);
      (split; [done|]); by rewrite Hs.
  - destruct (After m s) as [[e s']|msg] eqn:Ha; [|done].
    destruct (apiServiceCreatedByRainbond m) as [[|]|msg] eqn:Hd.
    + destruct (After_owned_sent m s e s' Hd Ha) as (_ & Hc & Hs).
      split; [done|]. rewrite Hs.
      destruct (GetAPIService singleton_key (world s)).1 as [cur|ce]; simpl.
      * split; [unfold writes; simpl; lia|]. right. eexists.
        split; [done|]. unfold writes. simpl. split; lia.
      * destruct (k8sErrors.IsNotFound ce);
          (split; [unfold writes; simpl; lia|]); right; eexists;
          (split; [done|]); unfold writes; simpl; split; lia.
    + rewrite (After_foreign m s Hd) in Ha. injection Ha as _ <-.
      rewrite sent_refl. split; [by rewrite app_nil_r|].
      split; [unfold writes; simpl; lia | by left].
    + revert Ha. run. by rewrite Hd.
Qed.

(** X8. What an owner's After returns. It is nil exactly when the write it
    attempts succeeds: the create after a NotFound, the update after a
    successful Get; a failure of the write comes back wrapped under
    "create new api service" or "update api service", any other failure of
    the Get under "get apiservice", and then nothing is written. *)
Theorem After_error_result m s :
  apiServiceCreatedByRainbond m = Done true →
  let new := apiserviceForMetricsServer m in
  ∃ e s',
    After m s = Done (e, s')
    ∧ e = match GetAPIService singleton_key (world s) with
          | (Ok cur, w) =>
              Errorf "update api service: %v" []
                <$> (Update (kubeaggregatorv1beta1.with_ResourceVersion
                               (kubeaggregatorv1beta1.ResourceVersion cur) new) w).1
          | (Err ce, w) =>
              if k8sErrors.IsNotFound ce
              then Errorf "create new api service: %v" [] <$> (Create new w).1
              else Some (Errorf "get apiservice(%s/%s): %v"
                           [MetricsServerName; cluster_Namespace m] ce)
          end
    ∧ is_nil e
      = match GetAPIService singleton_key (world s) with
        | (Ok cur, w) =>
            is_nil (Update (kubeaggregatorv1beta1.with_ResourceVersion
                              (kubeaggregatorv1beta1.ResourceVersion cur) new) w).1
        | (Err ce, w) =>
            k8sErrors.IsNotFound ce && is_nil (Create new w).1
        end
    ∧ world s'
      = match GetAPIService singleton_key (world s) with
        | (Ok cur, w) =>
            (Update (kubeaggregatorv1beta1.with_ResourceVersion
                       (kubeaggregatorv1beta1.ResourceVersion cur) new) w).2
        | (Err ce, w) =>
            if k8sErrors.IsNotFound ce then (Create new w).2 else w
        end.
Proof.
  intros Ho new. rewrite (After_owned m s Ho). fold new.
  destruct (GetAPIService singleton_key (world s)) as [[cur|ce] w]; simpl.
  - destruct (Update _ w) as [[e'|] w']; by eexists _, _.
  - destruct (k8sErrors.IsNotFound ce); simpl.
    + destruct (Create _ w) as [[e'|] w']; by eexists _, _.
    + by eexists _, _.
Qed.

(** X9. Resources writes two keys of one table and nothing else. Every
    other table of the heap is as before, and in the handler's table every
    key but "kubernetes.io/name" and "kubernetes.io/cluster-service" reads
    as before. *)
Theorem Resources_label_frame m s objs s' :
  Resources m s = Done (objs, s') →
  (∀ r : loc, r ≠ labels m → heap s' !! r = heap s !! r)
  ∧ (∀ k : string,
       k ≠ "kubernetes.io/name" → k ≠ "kubernetes.io/cluster-service" →
       deref (heap s') (labels m) !! k = deref (heap s) (labels m) !! k).
Proof.
  intros Hr.
  destruct (Resources_inv m s objs s' Hr) as [[Hf ->] | (_ & sv & _ & ->)].
  - rewrite (Resources_foreign m s Hf) in Hr. by injection Hr as <-.
  - simpl. split.
    + intros r Hne. unfold augment, assign. by rewrite !lookup_insert_ne.
    + intros k Hk1 Hk2. rewrite deref_augment. by rewrite !lookup_insert_ne.
Qed.

(** X10. Discovery depends on whether Resources has run. An owner's
    ListPods lists the pods of the component's namespace with the handler's
    label table as it is at that moment: before Resources that is the table
    as handed out, after Resources it carries the two keys of the Service. *)
Theorem ListPods_after_Resources m s :
  apiServiceCreatedByRainbond m = Done true →
  (∃ out s', ListPods m s = Done (out, s')
             ∧ sent s s' = [ListPodsCall (component_Namespace m)
                              (deref (heap s) (labels m))])
  ∧ (∃ objs s1 out s2,
       Resources m s = Done (objs, s1)
       ∧ ListPods m s1 = Done (out, s2)
       ∧ sent s1 s2
         = [ListPodsCall (component_Namespace m)
              (<["kubernetes.io/cluster-service" := "true"]>
                 (<["kubernetes.io/name" := "Metrics-server"]>
                    (deref (heap s) (labels m))))]).
Proof.
  intros Ho. split.
  - rewrite (ListPods_owned m s Ho). cbv zeta.
    destruct (ListPodsOf _ _ (world s)) as [o w]. eexists _, _.
    split; [done|]. by apply sent_app.
  - destruct (Resources_owned (W := W) m Ho) as (sv & Hr & _).
    eexists _, _. rewrite Hr, (ListPods_owned m _ Ho). cbv zeta.
    destruct (ListPodsOf _ _ _) as [o w]. eexists _, _.
    split; [done|]. split; [done|].
    erewrite (sent_app _ _ [_]); [|done]. simpl. by rewrite deref_augment.
Qed.

(** X11. What ListPods sends and where it lists. A run that returns has
    sent one of three things: one listing; or one Get of a Service and no
    listing; or one Get of a Service followed by one listing. The listing is
    for the component's namespace in each case, also when the selector comes
    from a service of another namespace. An owner sends the first, with the
    handler's label table; a handler that defers sends the Get for the
    service its stored back-reference names. *)
Theorem ListPods_requests m s :
  match ListPods m s with
  | Done (_, s') =>
      calls s' = calls s ++ sent s s'
      ∧ ((apiServiceCreatedByRainbond m = Done true
          ∧ sent s s' = [ListPodsCall (component_Namespace m)
                           (deref (heap s) (labels m))])
         ∨ (apiServiceCreatedByRainbond m = Done false
            ∧ ∃ a ref,
                apiservice m = Some a
                ∧ kubeaggregatorv1beta1.Service (kubeaggregatorv1beta1.Spec a)
                  = Some ref
                ∧ let key :=
                    {| types.Namespace := kubeaggregatorv1beta1.Namespace ref;
                       types.Name := kubeaggregatorv1beta1.Name ref |} in
                  match (GetService key (world s)).1 with
                  | Err _ => sent s s' = [GetCall KindService key]
                  | Ok svc =>
                      sent s s'
                      = [GetCall KindService key;
                         ListPodsCall (component_Namespace m)
                           (corev1.Selector (corev1.Spec svc))]
                  end))
  | Panic _ => True
  end.
Proof.
  destruct (ListPods m s) as [[out s']|msg] eqn:Hl; [|done].
  destruct (ListPods_sent m s out s' Hl) as (_ & Hc & Hshape).
  split; [done|].
  destruct (apiServiceCreatedByRainbond m) as [[|]|msg] eqn:Hd.
  - left. split; [done|].
    destruct Hshape as [[_ Hs] | [Hf _]]; [done | discriminate Hf].
  - right. split; [done|]. clear Hshape.
    pose proof Hd as Hd'. unfold apiServiceCreatedByRainbond in Hd'.
    destruct (apiservice m) as [a|] eqn:Ha; [|done].
    destruct (kubeaggregatorv1beta1.Service (kubeaggregatorv1beta1.Spec a))
      as [ref|] eqn:Href; [|done].
    exists a, ref. split; [done|]. split; [done|]. cbv zeta.
    rewrite (ListPods_foreign m s a ref Ha Href Hd) in Hl. cbv zeta in Hl.
    destruct (GetService _ (world s)) as [[svc|e] w]; simpl in *.
    + destruct (ListPodsOf _ _ w) as [o w']. injection Hl as _ <-.
      apply sent_app. simpl. by rewrite <-(assoc_L (++)).
    + injection Hl as _ <-. by apply sent_app.
  - revert Hl. run. by rewrite Hd.
Qed.

(** X12. The Service built by Resources leads to the pods of the
    Deployment built beside it: same namespace, its selector is the pod
    template's label map itself, so the two read the same in every heap, and
    each of its ports forwards to a port the container listens on. *)
Theorem service_selects_deployment_pods m s objs s' d sv :
  Resources m s = Done (objs, s') →
  DeploymentObject d ∈ objs →
  ServiceObject sv ∈ objs →
  metav1.Namespace (corev1.ObjectMeta sv) = metav1.Namespace (appsv1.ObjectMeta d)
  ∧ corev1.Selector (corev1.Spec sv)
    = metav1.Labels (corev1.TemplateMeta (appsv1.Template (appsv1.Spec d)))
  ∧ (∀ h : Heap,
       corev1.Selector (corev1.Spec (render_service h sv))
       = metav1.Labels
           (corev1.TemplateMeta
              (appsv1.Template (appsv1.Spec (render_deployment h d)))))
  ∧ Forall (targets_container_port d) (corev1.Ports (corev1.Spec sv)).
Proof.
  intros Hr Hd Hs.
  destruct (Resources_inv m s objs s' Hr) as [[_ ->] | (Ho & sv' & -> & _)].
  - by apply elem_of_nil in Hd.
  - destruct (Resources_owned (W := W) m Ho) as (sv'' & Hr' & Hl & Hsel).
    rewrite Hr' in Hr. injection Hr as <- _.
    apply list_elem_of_In in Hd, Hs. simpl in Hd, Hs.
    destruct Hd as [Hd | [Hd | []]]; [|done].
    destruct Hs as [Hs | [Hs | []]]; [done|].
    unfold deployment in Hd. injection Hd as <-. injection Hs as <-.
    revert Hr'. run. rewrite Ho. simpl. intros Hr'.
    specialize (Hr' s). injection Hr' as <-. simpl.
    split_and!; [done | done | done |].
    repeat constructor.
Qed.

(** X13. The singleton After registers and the Service Resources builds.
    The back-reference carries the Service's name; it carries the Service's
    namespace exactly when the cluster and the component are in one
    namespace, for the one is taken from the cluster and the other from the
    component. *)
Theorem backreference_and_built_service m s :
  apiServiceCreatedByRainbond m = Done true →
  ∃ d sv s' ref,
    Resources m s = Done ([DeploymentObject d; ServiceObject sv], s')
    ∧ kubeaggregatorv1beta1.Service
        (kubeaggregatorv1beta1.Spec (apiserviceForMetricsServer m)) = Some ref
    ∧ kubeaggregatorv1beta1.Name ref = metav1.Name (corev1.ObjectMeta sv)
    ∧ kubeaggregatorv1beta1.Namespace ref = cluster_Namespace m
    ∧ metav1.Namespace (corev1.ObjectMeta sv) = component_Namespace m
    ∧ bool_decide (kubeaggregatorv1beta1.Namespace ref
                   = metav1.Namespace (corev1.ObjectMeta sv))
      = bool_decide (cluster_Namespace m = component_Namespace m).
Proof.
  intros Ho. eexists _, _, _, _. split.
  - run. rewrite Ho. simpl. reflexivity.
  - by split_and!.
Qed.

(** X14. With the cluster and the component in one namespace the platform
    knows its own singleton again: a Before that reads an object with the
    spec After builds makes the handler the owner, so Resources returns the
    two objects. *)
Theorem same_namespace_round_trip m s a :
  cluster_Namespace m = component_Namespace m →
  (GetAPIService singleton_key (world s)).1 = Ok a →
  kubeaggregatorv1beta1.Spec a
    = kubeaggregatorv1beta1.Spec (apiserviceForMetricsServer m) →
  ∃ m' s',
    Before m s = Done ((m', None), s')
    ∧ apiServiceCreatedByRainbond m' = Done true
    ∧ ∃ d sv s'',
        Resources m' s' = Done ([DeploymentObject d; ServiceObject sv], s'').
Proof.
  intros Hns Hget Hspec.
  destruct (own_singleton_recognition m s a Hget Hspec) as (m' & s' & Hb & Ho).
  rewrite Hns, String.eqb_refl in Ho.
  exists m', s'. split; [done|]. split; [done|].
  destruct (Resources_owned (W := W) m' Ho) as (sv & -> & _).
  by eexists _, _, _.
Qed.

End Lifecycle.

(** * The handler on the in-memory control plane *)

#[local] Existing Instance store_client.
#[local] Existing Instance sample_helpers.

(** The scenario of the spec's "create-then-update": on an empty control
    plane the first After creates the singleton without a revision token,
    the second one updates it with the token the store has handed out. *)
Example After_twice :
  ∃ s1 s2,
    After platform_handler (boot empty_store) = Done (None, s1)
    ∧ After platform_handler s1 = Done (None, s2)
    ∧ calls s2
      = [ GetCall KindAPIService singleton_key;
          CreateCall (apiserviceForMetricsServer platform_handler);
          GetCall KindAPIService singleton_key;
          UpdateCall (kubeaggregatorv1beta1.with_ResourceVersion "1"
                        (apiserviceForMetricsServer platform_handler)) ]
    ∧ kubeaggregatorv1beta1.ResourceVersion
        <$> apiservices (world s2) !! metricsGroupAPI = Some "2".
Proof. eexists _, _. split_and!; [> vm_compute; reflexivity ..]. Qed.

(** C3. The failing run: component in [rbd-system], cluster in [default].
    The first pass owns by default and After creates the singleton, with the
    back-reference [default/metrics-server]; the Before of the next pass
    reads that very object and the decision is false, so Resources returns
    nothing: the platform takes its own singleton for a foreign one. *)
Theorem own_singleton_taken_for_foreign :
  ∃ m1 s1 s2 m2 s3,
    Before split_handler (boot empty_store) = Done ((m1, None), s1)
    ∧ After m1 s1 = Done (None, s2)
    ∧ apiservices (world s2) !! metricsGroupAPI
      = Some (kubeaggregatorv1beta1.with_ResourceVersion "1"
                (apiserviceForMetricsServer split_handler))
    ∧ Before split_handler (boot (world s2)) = Done ((m2, None), s3)
    ∧ apiservice m2
      = Some (kubeaggregatorv1beta1.with_ResourceVersion "1"
                (apiserviceForMetricsServer split_handler))
    ∧ apiServiceCreatedByRainbond m2 = Done false
    ∧ Resources m2 s3 = Done ([], s3).
Proof. eexists _, _, _, _, _. split_and!; [> vm_compute; reflexivity ..]. Qed.

(** C5. The failing run: Resources on a handler whose label table holds
    the component's name only. When it has returned, the handler's table
    holds the two keys of the Service as well: the helper has written into
    the handler's map, not into a copy. *)
Theorem Resources_writes_handler_labels :
  ∃ objs s',
    Resources platform_handler (boot empty_store) = Done (objs, s')
    ∧ deref (heap (boot empty_store)) (labels platform_handler)
      = {[ "name" := "metrics-server" ]}
    ∧ deref (heap s') (labels platform_handler)
      = {[ "name" := "metrics-server";
           "kubernetes.io/name" := "Metrics-server";
           "kubernetes.io/cluster-service" := "true" ]}
    ∧ deref (heap s') (labels platform_handler)
      ≠ deref (heap (boot empty_store)) (labels platform_handler).
Proof.
  eexists _, _. split_and!; [> vm_compute; reflexivity ..|].
  intros Heq. apply (f_equal (λ t : LabelMap, t !! "kubernetes.io/name")) in Heq.
  vm_compute in Heq. discriminate Heq.
Qed.

(** ** The theorems at the sample inputs *)

Lemma foreign_singleton_deference_witness :
  (GetAPIService singleton_key (world (boot foreign_store))).1 = Ok other_apiservice
  ∧ kubeaggregatorv1beta1.Service (kubeaggregatorv1beta1.Spec other_apiservice)
    = Some other_ref
  ∧ (kubeaggregatorv1beta1.Namespace other_ref, kubeaggregatorv1beta1.Name other_ref)
    ≠ (component_Namespace platform_handler, MetricsServerName)
  ∧ ∃ m s1,
      Before platform_handler (boot foreign_store) = Done ((m, None), s1)
      ∧ Resources m s1 = Done ([], s1)
      ∧ After m s1 = Done (None, s1)
      ∧ ∃ out s2,
          ListPods m s1 = Done (out, s2)
          ∧ calls s2
            = calls s1 ++
                [ GetCall KindService
                    {| types.Namespace := "other"; types.Name := "other-svc" |};
                  ListPodsCall "platform" {[ "k8s-app" := "metrics" ]} ].
Proof.
  assert (H1 : (GetAPIService singleton_key (world (boot foreign_store))).1
               = Ok other_apiservice) by reflexivity.
  assert (H2 : kubeaggregatorv1beta1.Service
                 (kubeaggregatorv1beta1.Spec other_apiservice) = Some other_ref)
    by reflexivity.
  assert (H3 : (kubeaggregatorv1beta1.Namespace other_ref,
                kubeaggregatorv1beta1.Name other_ref)
               ≠ (component_Namespace platform_handler, MetricsServerName))
    by (vm_compute; discriminate).
  split_and!; [exact H1 | exact H2 | exact H3 |].
  destruct (foreign_singleton_deference platform_handler (boot foreign_store)
              other_apiservice other_ref H1 H2 H3)
    as (m & s1 & HB & _ & HR & HA & HL).
  exists m, s1. split_and!; [exact HB | apply HR | apply HA |].
  destruct (HL s1) as (out & s2 & HP & _ & Hc & _).
  exists out, s2. split; [exact HP|]. rewrite Hc.
  injection HB as _ <-. reflexivity.
Defined.

Lemma adoption_default_witness :
  apiservice platform_handler = None
  ∧ (GetAPIService singleton_key (world (boot empty_store))).1
    = Err (StatusError StatusReasonNotFound metricsGroupAPI)
  ∧ k8sErrors.IsNotFound (StatusError StatusReasonNotFound metricsGroupAPI) = true
  ∧ ∃ m s1,
      Before platform_handler (boot empty_store) = Done ((m, None), s1)
      ∧ apiServiceCreatedByRainbond m = Done true
      ∧ ∃ d sv s', Resources m s1 = Done ([DeploymentObject d; ServiceObject sv], s').
Proof.
  assert (H1 : apiservice platform_handler = None) by reflexivity.
  assert (H2 : (GetAPIService singleton_key (world (boot empty_store))).1
               = Err (StatusError StatusReasonNotFound metricsGroupAPI))
    by (vm_compute; reflexivity).
  assert (H3 : k8sErrors.IsNotFound
                 (StatusError StatusReasonNotFound metricsGroupAPI) = true)
    by reflexivity.
  split_and!; [exact H1 | exact H2 | exact H3 |].
  destruct (adoption_default platform_handler (boot empty_store)
              (StatusError StatusReasonNotFound metricsGroupAPI) H1 H2 H3)
    as (m & s1 & HB & Ho & HR).
  exists m, s1. split_and!; [exact HB | exact Ho | apply HR].
Defined.

(** C2 as it is written, for every handler, fails on a handler that is
    used again: it holds the foreign singleton an earlier Before has stored,
    the control plane has no singleton any more, Before gets NotFound and
    returns nil, and the handler still is not the owner and Resources
    returns nothing. *)
Lemma adoption_default_fails_on_reused_handler :
  (GetAPIService singleton_key (world (boot empty_store))).1
    = Err (StatusError StatusReasonNotFound metricsGroupAPI)
  ∧ k8sErrors.IsNotFound (StatusError StatusReasonNotFound metricsGroupAPI) = true
  ∧ (∃ s1,
       Before deferring_handler (boot empty_store)
       = Done ((deferring_handler, None), s1)
       ∧ apiServiceCreatedByRainbond deferring_handler = Done false
       ∧ Resources deferring_handler s1 = Done ([], s1))
  ∧ ¬ (∃ m s1,
         Before deferring_handler (boot empty_store) = Done ((m, None), s1)
         ∧ apiServiceCreatedByRainbond m = Done true
         ∧ ∀ s : Sys Store, ∃ d sv s',
             Resources m s = Done ([DeploymentObject d; ServiceObject sv], s')).
Proof.
  split; [vm_compute; reflexivity|]. split; [reflexivity|]. split.
  - eexists. split_and!; [> vm_compute; reflexivity ..].
  - intros (m & s1 & HB & Ho & _).
    vm_compute in HB. injection HB as <- _.
    vm_compute in Ho. discriminate Ho.
Qed.

Lemma After_create_then_update_witness :
  apiServiceCreatedByRainbond platform_handler = Done true
  ∧ ∃ e s',
      After platform_handler (boot empty_store) = Done (e, s')
      ∧ calls s'
        = [ GetCall KindAPIService singleton_key;
            CreateCall (apiserviceForMetricsServer platform_handler) ].
Proof.
  assert (Ho : apiServiceCreatedByRainbond platform_handler = Done true)
    by reflexivity.
  split; [exact Ho|].
  destruct (After_create_then_update platform_handler (boot empty_store) Ho)
    as (e & s' & HA & _ & Hc & _).
  exists e, s'. split; [exact HA | exact Hc].
Defined.

Lemma Resources_idempotent_witness :
  apiServiceCreatedByRainbond platform_handler = Done true
  ∧ ∃ objs s1,
      Resources platform_handler (boot empty_store) = Done (objs, s1)
      ∧ Resources platform_handler s1 = Done (objs, s1)
      ∧ length objs = 2.
Proof.
  assert (Ho : apiServiceCreatedByRainbond platform_handler = Done true)
    by reflexivity.
  split; [exact Ho|].
  destruct (Resources_idempotent platform_handler (boot empty_store) true Ho)
    as (objs1 & s1 & objs2 & s2 & H1 & H2 & _ & <- & ->).
  exists objs1, s1. split_and!; [exact H1 | exact H2 |].
  injection H1 as <- _. reflexivity.
Defined.

Lemma label_map_aliasing_witness :
  apiServiceCreatedByRainbond platform_handler = Done true
  ∧ ∃ d sv s',
      Resources platform_handler (boot empty_store)
      = Done ([DeploymentObject d; ServiceObject sv], s')
      ∧ has_service_keys
          (metav1.Labels (appsv1.ObjectMeta (render_deployment (heap s') d))).
Proof.
  assert (Ho : apiServiceCreatedByRainbond platform_handler = Done true)
    by reflexivity.
  split; [exact Ho|].
  destruct (label_map_aliasing platform_handler (boot empty_store) Ho)
    as (d & sv & s' & HR & _ & _ & _ & _ & _ & _ & Hk & _).
  exists d, sv, s'. split; [exact HR | exact Hk].
Defined.

Lemma deployment_selects_its_pods_witness :
  ∃ objs s' d,
    Resources platform_handler (boot empty_store) = Done (objs, s')
    ∧ DeploymentObject d ∈ objs
    ∧ appsv1.Selector (appsv1.Spec (render_deployment (heap s') d))
      = Some {| metav1.MatchLabels :=
                  metav1.Labels
                    (corev1.TemplateMeta
                       (appsv1.Template
                          (appsv1.Spec (render_deployment (heap s') d)))) |}.
Proof.
  assert (Ho : apiServiceCreatedByRainbond platform_handler = Done true)
    by reflexivity.
  destruct (Resources_owned (W := Store) platform_handler Ho) as (sv & HR & _).
  specialize (HR (boot empty_store)). unfold deployment in HR.
  eexists _, _, _. split; [exact HR|]. split; [apply list_elem_of_here|].
  apply (deployment_selects_its_pods _ _ _ _ _ HR (list_elem_of_here _ _)).
Defined.


(** ** The further properties at the sample inputs *)

Lemma matching_singleton_adopted_witness :
  (GetAPIService singleton_key (world (boot lookalike_store))).1
    = Ok lookalike_apiservice
  ∧ ∃ m s1 e s2,
      Before platform_handler (boot lookalike_store) = Done ((m, None), s1)
      ∧ apiServiceCreatedByRainbond m = Done true
      ∧ After m s1 = Done (e, s2)
      ∧ sent s1 s2
        = [ GetCall KindAPIService singleton_key;
            UpdateCall (kubeaggregatorv1beta1.with_ResourceVersion "12"
                          (apiserviceForMetricsServer platform_handler)) ].
Proof.
  assert (H1 : (GetAPIService singleton_key (world (boot lookalike_store))).1
               = Ok lookalike_apiservice) by (vm_compute; reflexivity).
  split; [exact H1|].
  destruct (matching_singleton_adopted platform_handler (boot lookalike_store)
              lookalike_apiservice
              {| kubeaggregatorv1beta1.Namespace := "platform";
                 kubeaggregatorv1beta1.Name := "metrics-server" |}
              H1 eq_refl eq_refl eq_refl)
    as (m & s1 & HB & Ho & _ & HA).
  destruct (HA s1) as (e & s2 & He & Hs).
  exists m, s1, e, s2. split_and!; [exact HB | exact Ho | exact He |].
  rewrite Hs. injection HB as _ <-. reflexivity.
Defined.

Lemma singleton_without_backreference_panics_witness :
  (GetAPIService singleton_key (world (boot local_store))).1 = Ok local_apiservice
  ∧ kubeaggregatorv1beta1.Service (kubeaggregatorv1beta1.Spec local_apiservice)
    = None
  ∧ ∃ m s1 msg,
      Before platform_handler (boot local_store) = Done ((m, None), s1)
      ∧ Resources m s1 = Panic msg.
Proof.
  assert (H1 : (GetAPIService singleton_key (world (boot local_store))).1
               = Ok local_apiservice) by (vm_compute; reflexivity).
  assert (H2 : kubeaggregatorv1beta1.Service
                 (kubeaggregatorv1beta1.Spec local_apiservice) = None)
    by reflexivity.
  split_and!; [exact H1 | exact H2 |].
  destruct (singleton_without_backreference_panics platform_handler
              (boot local_store) local_apiservice H1 H2)
    as (m & s1 & HB & _ & HP).
  destruct (HP s1) as ((msg & HR) & _).
  exists m, s1, msg. split; [exact HB | exact HR].
Defined.

Lemma earlier_observation_survives_NotFound_witness :
  apiservice deferring_handler = Some other_apiservice
  ∧ (GetAPIService singleton_key (world (boot empty_store))).1
    = Err (StatusError StatusReasonNotFound metricsGroupAPI)
  ∧ ∃ s',
      Before deferring_handler (boot empty_store)
      = Done ((deferring_handler, None), s')
      ∧ Resources deferring_handler s' = Done ([], s').
Proof.
  assert (H1 : apiservice deferring_handler = Some other_apiservice)
    by reflexivity.
  assert (H2 : kubeaggregatorv1beta1.Service
                 (kubeaggregatorv1beta1.Spec other_apiservice) = Some other_ref)
    by reflexivity.
  assert (H3 : (kubeaggregatorv1beta1.Namespace other_ref,
                kubeaggregatorv1beta1.Name other_ref)
               ≠ (component_Namespace deferring_handler, MetricsServerName))
    by (vm_compute; discriminate).
  assert (H4 : (GetAPIService singleton_key (world (boot empty_store))).1
               = Err (StatusError StatusReasonNotFound metricsGroupAPI))
    by (vm_compute; reflexivity).
  split_and!; [exact H1 | exact H4 |].
  destruct (earlier_observation_survives_NotFound deferring_handler
              (boot empty_store) other_apiservice other_ref _ H1 H2 H3 H4 eq_refl)
    as (s' & HB & _ & HR & _).
  exists s'. split; [exact HB | exact HR].
Defined.

Lemma Before_idempotent_witness :
  ∃ m1 s1 s2,
    Before platform_handler (boot foreign_store) = Done ((m1, None), s1)
    ∧ apiservice m1 = Some other_apiservice
    ∧ (GetAPIService singleton_key (world s1)).1
      = (GetAPIService singleton_key (world (boot foreign_store))).1
    ∧ Before m1 s1 = Done ((m1, None), s2).
Proof.
  eexists _, _.
  assert (HB : Before platform_handler (boot foreign_store)
               = Done ((set_apiservice other_apiservice platform_handler, None),
                       {| heap := heap (boot foreign_store);
                          world := foreign_store;
                          calls := [GetCall KindAPIService singleton_key] |}))
    by (vm_compute; reflexivity).
  assert (HG : (GetAPIService singleton_key foreign_store).1
               = (GetAPIService singleton_key
                    (world (boot foreign_store))).1) by reflexivity.
  destruct (Before_idempotent _ _ _ _ _ HB HG) as (s2 & H2).
  exists s2. split_and!; [exact HB | reflexivity | exact HG | exact H2].
Defined.

Lemma After_error_result_witness :
  apiServiceCreatedByRainbond platform_handler = Done true
  ∧ ∃ e s', After platform_handler (boot empty_store) = Done (e, s')
            ∧ is_nil e = true.
Proof.
  assert (Ho : apiServiceCreatedByRainbond platform_handler = Done true)
    by reflexivity.
  split; [exact Ho|].
  destruct (After_error_result platform_handler (boot empty_store) Ho)
    as (e & s' & HA & _ & Hn & _).
  exists e, s'. split; [exact HA|]. rewrite Hn. vm_compute. reflexivity.
Defined.

Lemma Resources_label_frame_witness :
  ∃ objs s',
    Resources platform_handler (boot empty_store) = Done (objs, s')
    ∧ deref (heap s') (labels platform_handler) !! "name"
      = Some "metrics-server".
Proof.
  assert (Ho : apiServiceCreatedByRainbond platform_handler = Done true)
    by reflexivity.
  destruct (Resources_owned (W := Store) platform_handler Ho) as (sv & HR & _).
  specialize (HR (boot empty_store)).
  eexists _, _. split; [exact HR|].
  destruct (Resources_label_frame _ _ _ _ HR) as [_ Hk].
  rewrite Hk; [vm_compute; reflexivity | discriminate | discriminate].
Defined.

Lemma ListPods_after_Resources_witness :
  apiServiceCreatedByRainbond platform_handler = Done true
  ∧ ∃ objs s1 out s2,
      Resources platform_handler (boot empty_store) = Done (objs, s1)
      ∧ ListPods platform_handler s1 = Done (out, s2)
      ∧ sent s1 s2
        = [ ListPodsCall "platform"
              {[ "name" := "metrics-server";
                 "kubernetes.io/name" := "Metrics-server";
                 "kubernetes.io/cluster-service" := "true" ]} ].
Proof.
  assert (Ho : apiServiceCreatedByRainbond platform_handler = Done true)
    by reflexivity.
  split; [exact Ho|].
  destruct (ListPods_after_Resources platform_handler (boot empty_store) Ho)
    as (_ & objs & s1 & out & s2 & HR & HL & Hs).
  exists objs, s1, out, s2. split_and!; [exact HR | exact HL |].
  rewrite Hs. vm_compute. reflexivity.
Defined.

Lemma service_selects_deployment_pods_witness :
  ∃ objs s' d sv,
    Resources platform_handler (boot empty_store) = Done (objs, s')
    ∧ DeploymentObject d ∈ objs
    ∧ ServiceObject sv ∈ objs
    ∧ corev1.Selector (corev1.Spec (render_service (heap s') sv))
      = metav1.Labels
          (corev1.TemplateMeta
             (appsv1.Template (appsv1.Spec (render_deployment (heap s') d)))).
Proof.
  assert (Ho : apiServiceCreatedByRainbond platform_handler = Done true)
    by reflexivity.
  destruct (Resources_owned (W := Store) platform_handler Ho) as (sv & HR & _).
  specialize (HR (boot empty_store)). unfold deployment in HR.
  match type of HR with
  | _ = Done ([DeploymentObject ?d; _], ?s') =>
      assert (Hd : DeploymentObject d ∈ [DeploymentObject d; ServiceObject sv])
        by apply list_elem_of_here;
      assert (Hs : ServiceObject sv ∈ [DeploymentObject d; ServiceObject sv])
        by apply list_elem_of_further, list_elem_of_here;
      exists [DeploymentObject d; ServiceObject sv], s', d, sv
  end.
  split; [exact HR|]. split; [exact Hd|]. split; [exact Hs|].
  destruct (service_selects_deployment_pods _ _ _ _ _ _ HR Hd Hs)
    as (_ & _ & Hh & _).
  apply Hh.
Defined.

Lemma backreference_and_built_service_witness :
  apiServiceCreatedByRainbond split_handler = Done true
  ∧ ∃ d sv s' ref,
      Resources split_handler (boot empty_store)
      = Done ([DeploymentObject d; ServiceObject sv], s')
      ∧ kubeaggregatorv1beta1.Service
          (kubeaggregatorv1beta1.Spec (apiserviceForMetricsServer split_handler))
        = Some ref
      ∧ kubeaggregatorv1beta1.Namespace ref = "default"
      ∧ metav1.Namespace (corev1.ObjectMeta sv) = "rbd-system".
Proof.
  assert (Ho : apiServiceCreatedByRainbond split_handler = Done true)
    by reflexivity.
  split; [exact Ho|].
  destruct (backreference_and_built_service split_handler (boot empty_store) Ho)
    as (d & sv & s' & ref & HR & Href & _ & Hns & Hsv & _).
  exists d, sv, s', ref. split_and!; [exact HR | exact Href | exact Hns | exact Hsv].
Defined.

Lemma same_namespace_round_trip_witness :
  cluster_Namespace platform_handler = component_Namespace platform_handler
  ∧ (GetAPIService singleton_key (world (boot own_store))).1
    = Ok (kubeaggregatorv1beta1.with_ResourceVersion "1"
            (apiserviceForMetricsServer platform_handler))
  ∧ ∃ m' s',
      Before platform_handler (boot own_store) = Done ((m', None), s')
      ∧ apiServiceCreatedByRainbond m' = Done true.
Proof.
  assert (H1 : cluster_Namespace platform_handler
               = component_Namespace platform_handler) by reflexivity.
  assert (H2 : (GetAPIService singleton_key (world (boot own_store))).1
               = Ok (kubeaggregatorv1beta1.with_ResourceVersion "1"
                       (apiserviceForMetricsServer platform_handler)))
    by (vm_compute; reflexivity).
  split_and!; [exact H1 | exact H2 |].
  destruct (same_namespace_round_trip platform_handler (boot own_store) _
              H1 H2 eq_refl)
    as (m' & s' & HB & Ho & _).
  exists m', s'. split; [exact HB | exact Ho].
Defined.
